(** * Camoufox Profile Manager GUI: a shallow embedding of
    [camoufox_profile_gui.py] and the properties of its orchestration
    contract.

    The program is tkinter glue around an external command-line tool.  The
    embedding keeps the shape of the source: the methods of
    [CamoufoxProfileGUI] and [ProfileDialog] are functions in a small
    state-and-exception monad whose state holds the widgets the methods touch
    (the Treeview rows, the selection, the status bar), the outside world the
    child processes act on, and the trace of everything that became visible
    to the user or to the operating system (message boxes, dialogs, process
    invocations, thread starts).  What lives on the other side of a library
    boundary (the child process, [json.loads], the value a Treeview cell
    reads back as) is a field of the [platform] record. *)

From Stdlib Require Import ZArith NArith List String Ascii Bool DecimalString.
From Stdlib Require Import Floats.SpecFloat.
Import ListNotations.

Set Implicit Arguments.

(** ** Python values *)

Module Py.

(** A Python [str] is a sequence of Unicode code points. *)
Definition char := N.
Definition str := list char.

(** String literals of the source. *)
Definition lit (s : string) : str := map N_of_ascii (list_ascii_of_string s).

Definition str_eq_dec : forall a b : str, {a = b} + {a <> b} :=
  list_eq_dec N.eq_dec.

Definition str_eqb (a b : str) : bool :=
  if str_eq_dec a b then true else false.

(** [str.isspace] for one code point: the characters [str.strip()] removes. *)
Definition isspace (c : char) : bool :=
  (((9 <=? c) && (c <=? 13)) || ((28 <=? c) && (c <=? 32))
   || (c =? 133) || (c =? 160) || (c =? 5760)
   || ((8192 <=? c) && (c <=? 8202))
   || (c =? 8232) || (c =? 8233) || (c =? 8239) || (c =? 8287)
   || (c =? 12288))%N.

Fixpoint lstrip (s : str) : str :=
  match s with
  | c :: s' => if isspace c then lstrip s' else s
  | [] => []
  end.

Definition rstrip (s : str) : str := rev (lstrip (rev s)).

(** [s.strip()] *)
Definition strip (s : str) : str := lstrip (rstrip s).

(** [sep.join(parts)] on a list of strings. *)
Fixpoint join (sep : str) (parts : list str) : str :=
  match parts with
  | [] => []
  | [p] => p
  | p :: rest => p ++ sep ++ join sep rest
  end.

(** [str(n)] for integers. *)
Definition str_of_nat (n : nat) : str :=
  lit (NilEmpty.string_of_uint (Nat.to_uint n)).

Definition str_of_Z (z : Z) : str :=
  lit (NilEmpty.string_of_int (Z.to_int z)).

(** The values [json.loads] can return.  A [dict] keeps its keys in
    insertion order; a [float] is an IEEE 754 binary64 value. *)
#[warnings="-register-all"]
Inductive pyval :=
| PNone
| PBool (b : bool)
| PInt (z : Z)
| PFloat (f : spec_float)
| PStr (s : str)
| PList (l : list pyval)
| PDict (d : list (str * pyval)).

(** [type(v).__name__] *)
Definition type_name (v : pyval) : str :=
  match v with
  | PNone => lit "NoneType"
  | PBool _ => lit "bool"
  | PInt _ => lit "int"
  | PFloat _ => lit "float"
  | PStr _ => lit "str"
  | PList _ => lit "list"
  | PDict _ => lit "dict"
  end.

(** [bool(v)]: the test an [if v:] performs. *)
Definition truthy (v : pyval) : bool :=
  match v with
  | PNone => false
  | PBool b => b
  | PInt z => negb (z =? 0)%Z
  | PFloat (S754_zero _) => false
  | PFloat _ => true
  | PStr s => match s with [] => false | _ => true end
  | PList l => match l with [] => false | _ => true end
  | PDict d => match d with [] => false | _ => true end
  end.

(** [bool(s)] for a string. *)
Definition nonempty (s : str) : bool :=
  match s with [] => false | _ => true end.

(** [a or b] on strings. *)
Definition str_or (a b : str) : str := if nonempty a then a else b.

(** Lookup in a [dict] with string keys. *)
Fixpoint dict_get (d : list (str * pyval)) (k : str) : option pyval :=
  match d with
  | [] => None
  | (k', v) :: d' => if str_eqb k' k then Some v else dict_get d' k
  end.

(** [d[k] = v]: an existing key keeps its position. *)
Fixpoint dict_set (d : list (str * pyval)) (k : str) (v : pyval)
  : list (str * pyval) :=
  match d with
  | [] => [(k, v)]
  | (k', v') :: d' =>
      if str_eqb k' k then (k', v) :: d' else (k', v') :: dict_set d' k v
  end.

(** Exceptions, by class, with [str(e)]. *)
Inductive exn_class :=
| KeyError | AttributeError | TypeError | JSONDecodeError | TclError
| OtherException (class_name : str).

Record exn := Exn { exn_cls : exn_class; exn_str : str }.

Definition is_JSONDecodeError (e : exn) : bool :=
  match exn_cls e with JSONDecodeError => true | _ => false end.

(** Every class above derives from [Exception]. *)
Definition is_Exception (e : exn) : bool := true.

(** [iter(v)] as the list a [for] loop walks through. *)
Definition iterate (v : pyval) : exn + list pyval :=
  match v with
  | PList l => inr l
  | PStr s => inr (map (fun c => PStr [c]) s)
  | PDict d => inr (map (fun kv => PStr (fst kv)) d)
  | _ => inl (Exn TypeError
                (lit "'" ++ type_name v ++ lit "' object is not iterable"))
  end.

(** [len(v)] for the values [iterate] accepts. *)
Definition len (v : pyval) : nat :=
  match v with
  | PList l => List.length l
  | PStr s => List.length s
  | PDict d => List.length d
  | _ => 0
  end.

End Py.
Import Py.

(** ** [json.loads]

    The decoder of the standard library, as its C scanner runs it on a
    [str]: recursive descent over the text, with the position of the first
    offence in the error.  [loads] is the instance the closed examples below
    run on; the GUI model takes the decoder as a field of its [platform]. *)

Module Json.

Definition eqc (a : ascii) (c : char) : bool := N.eqb c (N_of_ascii a).

Definition is_whitespace (c : char) : bool :=
  eqc " " c || eqc "009" c || eqc "010" c || eqc "013" c.

Definition is_digit (c : char) : bool := ((48 <=? c) && (c <=? 57))%N.

Definition digit_value (c : char) : Z := Z.of_N c - 48.

Definition hex_value (c : char) : option N :=
  if is_digit c then Some (c - 48)%N
  else if ((97 <=? c) && (c <=? 102))%N then Some (c - 87)%N
  else if ((65 <=? c) && (c <=? 70))%N then Some (c - 55)%N
  else None.

(** The result of a scanning step: a value with the text left and the
    index reached, or a [JSONDecodeError] message with its index, or the
    interpreter giving up on the nesting depth. *)
Inductive scan (A : Type) :=
| Scanned (a : A) (rest : str) (idx : nat)
| Fails (msg : str) (idx : nat)
| TooDeep.
Arguments Fails {A}.
Arguments TooDeep {A}.

Fixpoint skip_whitespace (s : str) (idx : nat) : str * nat :=
  match s with
  | c :: s' => if is_whitespace c then skip_whitespace s' (S idx) else (s, idx)
  | [] => (s, idx)
  end.

(** [s] starts with the literal [p]: the text after it. *)
Fixpoint after_prefix (p s : str) : option str :=
  match p, s with
  | [], _ => Some s
  | a :: p', b :: s' => if N.eqb a b then after_prefix p' s' else None
  | _ :: _, [] => None
  end.

Fixpoint span_digits (s : str) : str * str :=
  match s with
  | c :: s' =>
      if is_digit c then let (d, r) := span_digits s' in (c :: d, r)
      else ([], s)
  | [] => ([], [])
  end.

Definition digits_value (ds : str) : Z :=
  fold_left (fun acc c => 10 * acc + digit_value c)%Z ds 0%Z.

(** Four hexadecimal digits of a [\uXXXX] escape. *)
Definition hex4 (a b c d : char) : option N :=
  match hex_value a, hex_value b, hex_value c, hex_value d with
  | Some x, Some y, Some z, Some w => Some (((x * 16 + y) * 16 + z) * 16 + w)%N
  | _, _, _, _ => None
  end.

Definition is_high_surrogate (c : N) : bool := ((55296 <=? c) && (c <=? 56319))%N.
Definition is_low_surrogate (c : N) : bool := ((56320 <=? c) && (c <=? 57343))%N.
Definition join_surrogates (hi lo : N) : N :=
  (65536 + (hi - 55296) * 1024 + (lo - 56320))%N.

Definition simple_escape (c : char) : option char :=
  if eqc "034" c then Some 34%N
  else if eqc "\" c then Some 92%N
  else if eqc "/" c then Some 47%N
  else if eqc "b" c then Some 8%N
  else if eqc "f" c then Some 12%N
  else if eqc "n" c then Some 10%N
  else if eqc "r" c then Some 13%N
  else if eqc "t" c then Some 9%N
  else None.

(** [scanstring] in strict mode, entered after the opening quote, which
    sits at [begin]; [acc] holds the decoded characters, last first. *)
Fixpoint scanstring (fuel : nat) (begin : nat) (s : str) (idx : nat)
  (acc : str) : scan str :=
  match fuel with
  | O => Fails (lit "Unterminated string starting at") begin
  | S fuel' =>
      match s with
      | [] => Fails (lit "Unterminated string starting at") begin
      | c :: s1 =>
          if eqc "034" c then Scanned (rev acc) s1 (S idx)
          else if eqc "\" c then
            match s1 with
            | [] => Fails (lit "Unterminated string starting at") begin
            | e :: s2 =>
                if eqc "u" e then
                  match s2 with
                  | h1 :: h2 :: h3 :: h4 :: (_ :: _) as s3 =>
                      match hex4 h1 h2 h3 h4 with
                      | None => Fails (lit "Invalid \uXXXX escape") (S idx)
                      | Some u =>
                          match s3 with
                          | b2 :: u2 :: g1 :: g2 :: g3 :: g4 :: (_ :: _) as s4 =>
                              if is_high_surrogate u && eqc "\" b2 && eqc "u" u2
                              then
                                match hex4 g1 g2 g3 g4 with
                                | None =>
                                    Fails (lit "Invalid \uXXXX escape") (idx + 7)
                                | Some u' =>
                                    if is_low_surrogate u'
                                    then scanstring fuel' begin s4 (idx + 12)
                                           (join_surrogates u u' :: acc)
                                    else scanstring fuel' begin s3 (idx + 6)
                                           (u :: acc)
                                end
                              else scanstring fuel' begin s3 (idx + 6) (u :: acc)
                          | _ => scanstring fuel' begin s3 (idx + 6) (u :: acc)
                          end
                      end
                  | _ => Fails (lit "Invalid \uXXXX escape") (S idx)
                  end
                else
                  match simple_escape e with
                  | Some c' => scanstring fuel' begin s2 (idx + 2) (c' :: acc)
                  | None => Fails (lit "Invalid \escape") idx
                  end
            end
          else if (c <=? 31)%N then
            Fails (lit "Invalid control character at") idx
          else scanstring fuel' begin s1 (S idx) (c :: acc)
      end
  end.

(** [float(text)] for a JSON number with a fraction or an exponent: the
    binary64 nearest to [m * 10 ^ e], ties to even. *)
Definition float_of_decimal (neg : bool) (m : Z) (e : Z) : spec_float :=
  match m with
  | Zpos mp =>
      if (0 <=? e)%Z then
        match (m * 10 ^ e)%Z with
        | Zpos p => binary_round 53 1024 neg p 0
        | _ => S754_zero neg
        end
      else
        let d := (10 ^ (- e))%Z in
        let k := Z.max 0 (55 + Z.log2 d - Z.log2 m) in
        let (q, r) := Z.div_eucl (m * 2 ^ k) d in
        let loc := if (r =? 0)%Z then loc_Exact
                   else loc_Inexact (Z.compare (2 * r) d) in
        binary_round_aux 53 1024 neg q (- k) loc
  | _ => S754_zero neg
  end.

(** [_match_number] at the head of [s], which starts at [idx]: an optional
    minus sign, then a single zero or a run of digits that starts with a
    nonzero one, then optionally a dot with at least one digit, then
    optionally [e] or [E], an optional sign and at least one digit.  A plain
    run of digits is an [int], anything longer a [float]. *)
Definition match_number (s : str) (idx : nat) : scan pyval :=
  let (neg, s0) := match s with
                   | c :: s' => if eqc "-" c then (true, s') else (false, s)
                   | [] => (false, s)
                   end in
  let sign_len := if neg then 1 else 0 in
  match s0 with
  | c :: s1 =>
      if is_digit c then
        let (more, s2) := if eqc "0" c then ([], s1) else span_digits s1 in
        let int_digits := c :: more in
        (* fraction *)
        let '(frac, s3) :=
          match s2 with
          | dot :: s2' =>
              if eqc "." dot then
                match span_digits s2' with
                | ([], _) => ([], s2)
                | (f, r) => (f, r)
                end
              else ([], s2)
          | [] => ([], s2)
          end in
        let frac_len := match frac with [] => 0 | _ => S (List.length frac) end in
        (* exponent *)
        let '(expo, exp_len, s4) :=
          match s3 with
          | e :: s3' =>
              if eqc "e" e || eqc "E" e then
                let '(eneg, esign, s3'') :=
                  match s3' with
                  | sg :: r =>
                      if eqc "-" sg then (true, 1, r)
                      else if eqc "+" sg then (false, 1, r)
                      else (false, 0, s3')
                  | [] => (false, 0, s3')
                  end in
                match span_digits s3'' with
                | ([], _) => (None, 0, s3)
                | (ds, r) =>
                    (Some (if eneg then (- digits_value ds)%Z else digits_value ds),
                     1 + esign + List.length ds, r)
                end
              else (None, 0, s3)
          | [] => (None, 0, s3)
          end in
        let idx' := idx + sign_len + List.length int_digits + frac_len + exp_len in
        match frac, expo with
        | [], None =>
            let n := digits_value int_digits in
            Scanned (PInt (if neg then (- n)%Z else n)) s4 idx'
        | _, _ =>
            let m := digits_value (int_digits ++ frac) in
            let e := (match expo with Some x => x | None => 0 end
                      - Z.of_nat (List.length frac))%Z in
            Scanned (PFloat (float_of_decimal neg m e)) s4 idx'
        end
      else Fails (lit "Expecting value") idx
  | [] => Fails (lit "Expecting value") idx
  end.

(** The constants of [scan_once] that are not numbers. *)
Definition constant (p : string) (v : pyval) (s : str) (idx : nat)
  : option (scan pyval) :=
  match after_prefix (lit p) s with
  | Some r => Some (Scanned v r (idx + String.length p))
  | None => None
  end.

Definition first_of {A} (a b : option A) : option A :=
  match a with Some _ => a | None => b end.

Definition match_constant (s : str) (idx : nat) : option (scan pyval) :=
  first_of (constant "null" PNone s idx)
  (first_of (constant "true" (PBool true) s idx)
  (first_of (constant "false" (PBool false) s idx)
  (first_of (constant "NaN" (PFloat S754_nan) s idx)
  (first_of (constant "Infinity" (PFloat (S754_infinity false)) s idx)
            (constant "-Infinity" (PFloat (S754_infinity true)) s idx))))).

(** [scan_once], [_parse_array] and [_parse_object].  [scan_array] and
    [scan_object] are entered at the first element, respectively key. *)
Fixpoint scan_once (fuel : nat) (s : str) (idx : nat) : scan pyval :=
  match fuel with
  | O => TooDeep
  | S fuel' =>
      match s with
      | [] => Fails (lit "Expecting value") idx
      | c :: s1 =>
          if eqc "034" c then
            match scanstring (List.length s1) idx s1 (S idx) [] with
            | Scanned v r i => Scanned (PStr v) r i
            | Fails m i => Fails m i
            | TooDeep => TooDeep
            end
          else if eqc "{" c then
            let (s2, i2) := skip_whitespace s1 (S idx) in
            match s2 with
            | c2 :: s3 =>
                if eqc "}" c2 then Scanned (PDict []) s3 (S i2)
                else scan_object fuel' s2 i2 []
            | [] => scan_object fuel' s2 i2 []
            end
          else if eqc "[" c then
            let (s2, i2) := skip_whitespace s1 (S idx) in
            match s2 with
            | c2 :: s3 =>
                if eqc "]" c2 then Scanned (PList []) s3 (S i2)
                else scan_array fuel' s2 i2 []
            | [] => scan_array fuel' s2 i2 []
            end
          else
            match match_constant s idx with
            | Some r => r
            | None => match_number s idx
            end
      end
  end

with scan_array (fuel : nat) (s : str) (idx : nat) (acc : list pyval)
  : scan pyval :=
  match fuel with
  | O => TooDeep
  | S fuel' =>
      match scan_once fuel' s idx with
      | Scanned v s1 i1 =>
          let (s2, i2) := skip_whitespace s1 i1 in
          match s2 with
          | c :: s3 =>
              if eqc "]" c then Scanned (PList (rev (v :: acc))) s3 (S i2)
              else if eqc "," c then
                let (s4, i4) := skip_whitespace s3 (S i2) in
                scan_array fuel' s4 i4 (v :: acc)
              else Fails (lit "Expecting ',' delimiter") i2
          | [] => Fails (lit "Expecting ',' delimiter") i2
          end
      | Fails m i => Fails m i
      | TooDeep => TooDeep
      end
  end

with scan_object (fuel : nat) (s : str) (idx : nat)
  (acc : list (str * pyval)) : scan pyval :=
  match fuel with
  | O => TooDeep
  | S fuel' =>
      match s with
      | q :: s1 =>
          if eqc "034" q then
            match scanstring (List.length s1) idx s1 (S idx) [] with
            | Scanned key s2 i2 =>
                let (s3, i3) := skip_whitespace s2 i2 in
                match s3 with
                | colon :: s4 =>
                    if eqc ":" colon then
                      let (s5, i5) := skip_whitespace s4 (S i3) in
                      match scan_once fuel' s5 i5 with
                      | Scanned v s6 i6 =>
                          let acc' := dict_set acc key v in
                          let (s7, i7) := skip_whitespace s6 i6 in
                          match s7 with
                          | c :: s8 =>
                              if eqc "}" c then Scanned (PDict acc') s8 (S i7)
                              else if eqc "," c then
                                let (s9, i9) := skip_whitespace s8 (S i7) in
                                scan_object fuel' s9 i9 acc'
                              else Fails (lit "Expecting ',' delimiter") i7
                          | [] => Fails (lit "Expecting ',' delimiter") i7
                          end
                      | Fails m i => Fails m i
                      | TooDeep => TooDeep
                      end
                    else Fails (lit "Expecting ':' delimiter") i3
                | [] => Fails (lit "Expecting ':' delimiter") i3
                end
            | Fails m i => Fails m i
            | TooDeep => TooDeep
            end
          else
            Fails (lit "Expecting property name enclosed in double quotes") idx
      | [] =>
          Fails (lit "Expecting property name enclosed in double quotes") idx
      end
  end.

(** [JSONDecodeError(msg, doc, pos)]: [str(e)] names the line and column. *)
Fixpoint line_col (doc : str) (pos : nat) (line col : nat) : nat * nat :=
  match pos, doc with
  | S pos', c :: doc' =>
      if eqc "010" c then line_col doc' pos' (S line) 1
      else line_col doc' pos' line (S col)
  | _, _ => (line, col)
  end.

Definition decode_error (msg : str) (doc : str) (pos : nat) : exn :=
  let (line, col) := line_col doc pos 1 1 in
  Exn JSONDecodeError
    (msg ++ lit ": line " ++ str_of_nat line ++ lit " column " ++ str_of_nat col
         ++ lit " (char " ++ str_of_nat pos ++ lit ")").

Definition recursion_error : exn :=
  Exn (OtherException (lit "RecursionError"))
      (lit "maximum recursion depth exceeded").

(** [json.loads(doc)] for a [str]. *)
Definition loads (doc : str) : exn + pyval :=
  match doc with
  | 65279%N :: _ =>
      inl (decode_error (lit "Unexpected UTF-8 BOM (decode using utf-8-sig)")
             doc 0)
  | _ =>
      let (s0, i0) := skip_whitespace doc 0 in
      match scan_once (2 * List.length doc + 2) s0 i0 with
      | Scanned v s1 i1 =>
          let (s2, i2) := skip_whitespace s1 i1 in
          match s2 with
          | [] => inr v
          | _ :: _ => inl (decode_error (lit "Extra data") doc i2)
          end
      | Fails msg i => inl (decode_error msg doc i)
      | TooDeep => inl recursion_error
      end
  end.

End Json.

(** ** The platform: what the GUI reaches through a library call *)

(** [subprocess.CompletedProcess] with [capture_output=True, text=True]. *)
Record CompletedProcess := {
  returncode : Z;
  stdout : str;
  stderr : str
}.

(** A Treeview cell as [Treeview.item(iid)["values"]] hands it back: ttk
    turns every cell into its string and that string into an [int] when it
    reads as one. *)
Inductive tk_val :=
| TkStr (s : str)
| TkInt (z : Z).

(** [str(v)], which is also what a [tk.StringVar] initialised with [v]
    returns from [get()]. *)
Definition tk_str (v : tk_val) : str :=
  match v with
  | TkStr s => s
  | TkInt z => str_of_Z z
  end.

Record platform := {
  (** whatever the child processes read and write *)
  World : Type;
  (** [subprocess.run(cmd, capture_output=True, text=True, cwd=project_root)]:
      the process is spawned and waited for, without a timeout; the call
      returns what the process left, or raises, or, for a process that never
      exits, does not come back at all ([None]) *)
  subprocess_run :
    list str -> World -> option ((exn + CompletedProcess) * World);
  (** [json.loads], which takes no value out of the empty text *)
  json_loads : str -> exn + pyval;
  json_loads_empty : forall v, json_loads [] <> inr v;
  (** the read-back of a Treeview cell that was inserted as the given value *)
  cell_readback : pyval -> tk_val;
  (** [str(self.python_path)] and [str(self.script_path)] *)
  python_path : str;
  script_path : str
}.

(** ** The GUI *)

(** A row of [self.tree], by column. *)
Record item := {
  col_ID : pyval;
  col_Name : pyval;
  col_Storage_Path : pyval;
  col_Proxy : pyval
}.

(** The dict [get_selected_profile] returns. *)
Record profile := {
  profile_id : tk_val;
  profile_name : tk_val;
  profile_storage_path : tk_val;
  profile_proxy : tk_val
}.

(** What the program does that is visible outside it, in order. *)
Inductive event :=
| Showinfo (title message : str)
| Showerror (title message : str)
| Showwarning (title message : str)
| Askyesnocancel (title message : str) (response : option bool)
| Subprocess_run (args : list str)
| Dialog_shown (title name_field storage_field proxy_field : str)
| Thread_start (daemon : bool) (cmd : list tk_val).

(** What the user can do to an open [ProfileDialog]. *)
Inductive gesture :=
| Type_name (text : str)
| Type_storage (text : str)
| Type_proxy (text : str)
| Click_OK
| Press_Return
| Click_Cancel
| Press_Escape
| Close_window.

(** [ProfileDialog.result] *)
Record dialog_result := {
  result_name : str;
  result_storage_path : str;
  result_proxy : str
}.

(** A [ProfileDialog] object. *)
Record ProfileDialog := {
  dialog_title : str;
  name_var : str;
  storage_var : str;
  proxy_var : str;
  result : option dialog_result;
  dialog_exists : bool
}.

Section Gui.

Variable P : platform.

(** The state the methods of [CamoufoxProfileGUI] act on. *)
Record state := {
  tree : list item;          (* the rows of [self.tree], top to bottom *)
  selection : list nat;      (* [self.tree.selection()], as row positions *)
  status_var : str;          (* [self.status_var] *)
  world : World P;
  trace : list event         (* oldest first *)
}.

(** *** The monad: state, exceptions, and waiting forever (on the user, or
    on a child process that never exits) *)

Inductive outcome (A : Type) :=
| Ret (a : A) (s : state)
| Raise (e : exn) (s : state)
| Blocked (s : state).
Arguments Raise {A}.
Arguments Blocked {A}.

Definition M (A : Type) := state -> outcome A.

Definition ret {A} (a : A) : M A := fun s => Ret a s.

Definition bind {A B} (c : M A) (k : A -> M B) : M B :=
  fun s =>
    match c s with
    | Ret a s' => k a s'
    | Raise e s' => Raise e s'
    | Blocked s' => Blocked s'
    end.

Definition raise {A} (e : exn) : M A := fun s => Raise e s.

Definition blocked {A} : M A := fun s => Blocked s.

(** A library call that returns or raises. *)
Definition lift {A} (r : exn + A) : M A :=
  match r with
  | inl e => raise e
  | inr a => ret a
  end.

(** [try: body / except <handles> as e: handler e] *)
Definition try_except {A} (body : M A) (handles : exn -> bool)
  (handler : exn -> M A) : M A :=
  fun s =>
    match body s with
    | Raise e s' => if handles e then handler e s' else Raise e s'
    | r => r
    end.

(** [try: body / finally: final] *)
Definition try_finally {A} (body : M A) (final : M unit) : M A :=
  fun s =>
    match body s with
    | Ret a s' => bind final (fun _ => ret a) s'
    | Raise e s' => bind final (fun _ => raise e) s'
    | Blocked s' => Blocked s'
    end.

Definition gets {A} (f : state -> A) : M A := fun s => Ret (f s) s.

Definition modify (f : state -> state) : M unit := fun s => Ret tt (f s).

Notation "x <- c ;; k" := (bind c (fun x => k))
  (at level 61, c at next level, right associativity).
Notation "c ;; k" := (bind c (fun _ => k))
  (at level 61, right associativity).

(** [for x in xs: body x] *)
Fixpoint for_each {A} (xs : list A) (body : A -> M unit) : M unit :=
  match xs with
  | [] => ret tt
  | x :: xs' => body x ;; for_each xs' body
  end.

(** *** Widgets and message boxes *)

Definition log (e : event) : M unit :=
  modify (fun s => {| tree := tree s; selection := selection s;
                      status_var := status_var s; world := world s;
                      trace := trace s ++ [e] |}).

Definition showinfo (title message : str) : M unit :=
  log (Showinfo title message).

Definition showerror (title message : str) : M unit :=
  log (Showerror title message).

Definition showwarning (title message : str) : M unit :=
  log (Showwarning title message).

(** The user's answer is the one handed in. *)
Definition askyesnocancel (title message : str) (response : option bool)
  : M (option bool) :=
  log (Askyesnocancel title message response) ;; ret response.

(** [self.tree.delete(item)] for every child: no row and no selection is
    left. *)
Definition tree_delete_children : M unit :=
  modify (fun s => {| tree := []; selection := [];
                      status_var := status_var s; world := world s;
                      trace := trace s |}).

(** [self.tree.insert("", tk.END, values=...)] *)
Definition tree_insert (it : item) : M unit :=
  modify (fun s => {| tree := tree s ++ [it]; selection := selection s;
                      status_var := status_var s; world := world s;
                      trace := trace s |}).

Definition set_status (message : str) : M unit :=
  modify (fun s => {| tree := tree s; selection := selection s;
                      status_var := message; world := world s;
                      trace := trace s |}).

(** The child process runs in the world and is seen from outside; the
    caller waits for it, however long it takes. *)
Definition run_subprocess (args : list str) : M CompletedProcess :=
  log (Subprocess_run args) ;;
  fun s =>
    match subprocess_run P args (world s) with
    | Some (r, w) =>
        let s' := {| tree := tree s; selection := selection s;
                     status_var := status_var s; world := w;
                     trace := trace s |} in
        match r with
        | inl e => Raise e s'
        | inr done => Ret done s'
        end
    | None => Blocked s
    end.

(** *** [CamoufoxProfileGUI] *)

(** The elements of [cmd] as strings, the way [' '.join(cmd)] wants them;
    [i] is the index of the head. *)
Fixpoint str_items (i : nat) (cmd : list tk_val) : exn + list str :=
  match cmd with
  | [] => inr []
  | TkStr a :: cmd' =>
      match str_items (S i) cmd' with
      | inr rest => inr (a :: rest)
      | inl e => inl e
      end
  | TkInt _ :: _ =>
      inl (Exn TypeError
             (lit "sequence item " ++ str_of_nat i
                ++ lit ": expected str instance, int found"))
  end.

Definition run_command (cmd : list tk_val) (show_output : bool)
  : M (option str) :=
  try_finally
    (try_except
       (args <- lift (str_items 0 cmd) ;;
        set_status (lit "Running: " ++ join (lit " ") args) ;;
        result <- run_subprocess args ;;
        if (returncode result =? 0)%Z then
          (if show_output && nonempty (strip (stdout result))
           then showinfo (lit "Command Output") (stdout result)
           else ret tt) ;;
          ret (Some (stdout result))
        else
          let error_msg :=
            str_or (strip (stderr result)) (strip (stdout result)) in
          showerror (lit "Error")
            (lit "Command failed:" ++ [10%N] ++ error_msg) ;;
          ret None)
       is_Exception
       (fun e =>
          showerror (lit "Error") (lit "Failed to run command: " ++ exn_str e) ;;
          ret None))
    (set_status (lit "Ready")).

(** [if output:] on what [run_command] returned. *)
Definition output_truthy (output : option str) : bool :=
  match output with
  | Some out => nonempty out
  | None => false
  end.

(** [profile.get(key)] *)
Definition get_method (v : pyval) (key : str) : exn + pyval :=
  match v with
  | PDict d => inr (match dict_get d key with Some x => x | None => PNone end)
  | _ => inl (Exn AttributeError
                (lit "'" ++ type_name v ++ lit "' object has no attribute 'get'"))
  end.

(** [profile[key]] for a string [key] *)
Definition getitem (v : pyval) (key : str) : exn + pyval :=
  match v with
  | PDict d =>
      match dict_get d key with
      | Some x => inr x
      | None => inl (Exn KeyError (lit "'" ++ key ++ lit "'"))
      end
  | PList _ =>
      inl (Exn TypeError (lit "list indices must be integers or slices, not str"))
  | PStr _ =>
      inl (Exn TypeError (lit "string indices must be integers, not 'str'"))
  | _ => inl (Exn TypeError
                (lit "'" ++ type_name v ++ lit "' object is not subscriptable"))
  end.

(** The body of the loop of [refresh_profiles]. *)
Definition insert_profile (profile : pyval) : M unit :=
  proxy_host <- lift (get_method profile (lit "proxy_host")) ;;
  let proxy_status := if truthy proxy_host then lit "yes" else lit "no" in
  id <- lift (getitem profile (lit "id")) ;;
  name <- lift (getitem profile (lit "name")) ;;
  storage_path <- lift (getitem profile (lit "storage_path")) ;;
  tree_insert {| col_ID := id; col_Name := name;
                 col_Storage_Path := storage_path;
                 col_Proxy := PStr proxy_status |}.

Definition list_cmd : list tk_val :=
  [TkStr (python_path P); TkStr (script_path P);
   TkStr (lit "list"); TkStr (lit "--json")].

Definition refresh_profiles : M unit :=
  set_status (lit "Refreshing profiles...") ;;
  tree_delete_children ;;
  output <- run_command list_cmd false ;;
  match output with
  | Some out =>
      if nonempty out then
        try_except
          (profiles <- lift (json_loads P out) ;;
           elements <- lift (iterate profiles) ;;
           for_each elements insert_profile ;;
           set_status (lit "Loaded " ++ str_of_nat (len profiles)
                         ++ lit " profiles"))
          is_JSONDecodeError
          (fun e =>
             showerror (lit "Error")
               (lit "Failed to parse profiles: " ++ exn_str e) ;;
             set_status (lit "Error loading profiles"))
      else ret tt
  | None => ret tt
  end.

Definition profile_of_item (it : item) : profile :=
  {| profile_id := cell_readback P (col_ID it);
     profile_name := cell_readback P (col_Name it);
     profile_storage_path := cell_readback P (col_Storage_Path it);
     profile_proxy := cell_readback P (col_Proxy it) |}.

Definition get_selected_profile : M (option profile) :=
  sel <- gets selection ;;
  match sel with
  | [] =>
      showwarning (lit "No Selection") (lit "Please select a profile first.") ;;
      ret None
  | first :: _ =>
      rows <- gets tree ;;
      match nth_error rows first with
      | Some it => ret (Some (profile_of_item it))
      | None =>
          raise (Exn TclError
                   (lit "Item " ++ str_of_nat first ++ lit " not found"))
      end
  end.

(** *** [ProfileDialog] *)

(** [initial_data.get(key, "")] as the text the entry starts with. *)
Fixpoint initial_get (initial_data : list (str * tk_val)) (key : str) : str :=
  match initial_data with
  | [] => []
  | (k, v) :: rest => if str_eqb k key then tk_str v else initial_get rest key
  end.

(** [__init__] up to [wait_window]: the dialog as it first appears.
    [initial_data or {}] turns a missing dict into an empty one. *)
Definition setup_dialog (title : str)
  (initial_data : option (list (str * tk_val))) : ProfileDialog :=
  let data := match initial_data with Some d => d | None => [] end in
  {| dialog_title := title;
     name_var := initial_get data (lit "name");
     storage_var := initial_get data (lit "storage_path");
     proxy_var := initial_get data (lit "proxy");
     result := None;
     dialog_exists := true |}.

(** [self.dialog.destroy()] *)
Definition destroy (d : ProfileDialog) : ProfileDialog :=
  {| dialog_title := dialog_title d;
     name_var := name_var d; storage_var := storage_var d;
     proxy_var := proxy_var d; result := result d;
     dialog_exists := false |}.

Definition ok_clicked (d : ProfileDialog) : M ProfileDialog :=
  let name := strip (name_var d) in
  if negb (nonempty name) then
    showerror (lit "Error") (lit "Profile name is required!") ;;
    ret d
  else
    ret (destroy
           {| dialog_title := dialog_title d;
              name_var := name_var d; storage_var := storage_var d;
              proxy_var := proxy_var d;
              result := Some {| result_name := name;
                                result_storage_path := strip (storage_var d);
                                result_proxy := strip (proxy_var d) |};
              dialog_exists := dialog_exists d |}).

Definition cancel_clicked (d : ProfileDialog) : M ProfileDialog :=
  ret (destroy d).

(** One user gesture on the open dialog: typing replaces the text of a
    field; the OK button and the Return key are bound to [ok_clicked], the
    Cancel button and the Escape key to [cancel_clicked]; closing the window
    destroys it. *)
Definition dispatch (g : gesture) (d : ProfileDialog) : M ProfileDialog :=
  match g with
  | Type_name t =>
      ret {| dialog_title := dialog_title d;
             name_var := t; storage_var := storage_var d;
             proxy_var := proxy_var d; result := result d;
             dialog_exists := dialog_exists d |}
  | Type_storage t =>
      ret {| dialog_title := dialog_title d;
             name_var := name_var d; storage_var := t;
             proxy_var := proxy_var d; result := result d;
             dialog_exists := dialog_exists d |}
  | Type_proxy t =>
      ret {| dialog_title := dialog_title d;
             name_var := name_var d; storage_var := storage_var d;
             proxy_var := t; result := result d;
             dialog_exists := dialog_exists d |}
  | Click_OK | Press_Return => ok_clicked d
  | Click_Cancel | Press_Escape => cancel_clicked d
  | Close_window => ret (destroy d)
  end.

(** [self.dialog.wait_window()]: the gestures are served until the dialog
    is destroyed; a user who never closes it is waited for forever. *)
Fixpoint wait_window (d : ProfileDialog) (user : list gesture)
  : M ProfileDialog :=
  if dialog_exists d then
    match user with
    | [] => blocked
    | g :: user' => d' <- dispatch g d ;; wait_window d' user'
    end
  else ret d.

(** [ProfileDialog(parent, title, initial_data)] *)
Definition ProfileDialog_init (title : str)
  (initial_data : option (list (str * tk_val))) (user : list gesture)
  : M ProfileDialog :=
  let d := setup_dialog title initial_data in
  log (Dialog_shown title (name_var d) (storage_var d) (proxy_var d)) ;;
  wait_window d user.

(** *** The buttons *)

Definition nl : str := [10%N].
Definition bullet : str := [8226%N].

Definition option_flag (flag : string) (value : str) : list tk_val :=
  if nonempty value then [TkStr (lit flag); TkStr value] else [].

Definition create_cmd (r : dialog_result) : list tk_val :=
  [TkStr (python_path P); TkStr (script_path P);
   TkStr (lit "create"); TkStr (result_name r)]
    ++ option_flag "--proxy" (result_proxy r)
    ++ option_flag "--storage-path" (result_storage_path r).

Definition create_profile (user : list gesture) : M unit :=
  dialog <- ProfileDialog_init (lit "Create New Profile") None user ;;
  match result dialog with
  | Some r =>
      output <- run_command (create_cmd r) false ;;
      if output_truthy output then
        showinfo (lit "Success")
          (lit "Profile '" ++ result_name r ++ lit "' created successfully!") ;;
        refresh_profiles
      else ret tt
  | None => ret tt
  end.

(** The [initial_data] of the edit dialog. *)
Definition edit_initial_data (p : profile) : list (str * tk_val) :=
  [(lit "name", profile_name p);
   (lit "storage_path",
    match profile_storage_path p with
    | TkStr s => if str_eqb s (lit "default") then TkStr [] else TkStr s
    | other => other
    end);
   (lit "proxy", TkStr [])].

Definition edit_cmd (p : profile) (r : dialog_result) : list tk_val :=
  [TkStr (python_path P); TkStr (script_path P);
   TkStr (lit "edit"); profile_id p]
    ++ option_flag "--name" (result_name r)
    ++ option_flag "--proxy" (result_proxy r)
    ++ option_flag "--storage-path" (result_storage_path r).

Definition edit_profile (user : list gesture) : M unit :=
  selected <- get_selected_profile ;;
  match selected with
  | None => ret tt
  | Some p =>
      dialog <- ProfileDialog_init (lit "Edit Profile")
                  (Some (edit_initial_data p)) user ;;
      match result dialog with
      | Some r =>
          output <- run_command (edit_cmd p r) false ;;
          if output_truthy output then
            showinfo (lit "Success")
              (lit "Profile '" ++ tk_str (profile_name p)
                 ++ lit "' updated successfully!") ;;
            refresh_profiles
          else ret tt
      | None => ret tt
      end
  end.

Definition delete_question (p : profile) : str :=
  lit "Delete profile '" ++ tk_str (profile_name p) ++ lit "'?" ++ nl ++ nl
    ++ lit "Choose:" ++ nl
    ++ bullet ++ lit " Yes: Delete profile and remove storage directory" ++ nl
    ++ bullet ++ lit " No: Delete profile but keep storage directory" ++ nl
    ++ bullet ++ lit " Cancel: Don't delete anything".

Definition delete_cmd (p : profile) (remove_storage : bool) : list tk_val :=
  [TkStr (python_path P); TkStr (script_path P);
   TkStr (lit "delete"); profile_id p]
    ++ (if remove_storage then [TkStr (lit "--remove-storage")] else []).

(** [user] is the button the user picks in the confirmation box:
    [Some true] for Yes, [Some false] for No, [None] for Cancel. *)
Definition delete_profile (user : option bool) : M unit :=
  selected <- get_selected_profile ;;
  match selected with
  | None => ret tt
  | Some p =>
      response <- askyesnocancel (lit "Confirm Deletion") (delete_question p)
                    user ;;
      match response with
      | None => ret tt
      | Some yes =>
          output <- run_command (delete_cmd p yes) false ;;
          if output_truthy output then
            let action := if yes then lit "and storage directory"
                          else lit "but kept storage directory" in
            showinfo (lit "Success")
              (lit "Profile '" ++ tk_str (profile_name p) ++ lit "' deleted "
                 ++ action ++ lit "!") ;;
            refresh_profiles
          else ret tt
      end
  end.

Definition open_cmd (p : profile) : list tk_val :=
  [TkStr (python_path P); TkStr (script_path P);
   TkStr (lit "open"); profile_id p].

(** The body of the worker thread [open_profile] starts. *)
Definition run_open (p : profile) : M (option str) :=
  run_command (open_cmd p) true.

(** The thread is started and left alone: it is recorded with the command
    it will run, and [run_open] is what it does whenever it gets to run. *)
Definition open_profile : M unit :=
  selected <- get_selected_profile ;;
  match selected with
  | None => ret tt
  | Some p =>
      log (Thread_start true (open_cmd p)) ;;
      showinfo (lit "Opening Profile")
        (lit "Opening profile '" ++ tk_str (profile_name p)
           ++ lit "' for manual login...")
  end.

End Gui.

Arguments Raise {P A}.
Arguments Blocked {P A}.

(** ** Vocabulary of the properties *)

(** The state an outcome leaves behind. *)
Definition final {P A} (o : outcome P A) : state P :=
  match o with
  | Ret _ s => s
  | Raise _ s => s
  | Blocked s => s
  end.

(** A computation only ever adds to the trace. *)
Definition grows {P A} (c : M P A) : Prop :=
  forall s, exists evs, trace (final (c s)) = trace s ++ evs.

(** The argument vector of the [list] invocation. *)
Definition list_args (P : platform) : list str :=
  [python_path P; script_path P; lit "list"; lit "--json"].

(** The object's [proxy_host] field is present and truthy. *)
Definition proxy_host_truthy (d : list (str * pyval)) : Prop :=
  exists v, dict_get d (lit "proxy_host") = Some v /\ truthy v = true.

(** [it] is the table row of the profile object [o]: [o] has the keys [id],
    [name] and [storage_path], their values fill the first three columns,
    and the proxy column says yes exactly for a truthy [proxy_host]. *)
Definition row_of (o : pyval) (it : item) : Prop :=
  exists d,
    o = PDict d
    /\ dict_get d (lit "id") = Some (col_ID it)
    /\ dict_get d (lit "name") = Some (col_Name it)
    /\ dict_get d (lit "storage_path") = Some (col_Storage_Path it)
    /\ (proxy_host_truthy d -> col_Proxy it = PStr (lit "yes"))
    /\ (~ proxy_host_truthy d -> col_Proxy it = PStr (lit "no")).

(** The first of the keys [id], [name], [storage_path] that [d] lacks. *)
Definition first_missing_key (d : list (str * pyval)) : option str :=
  match dict_get d (lit "id") with
  | None => Some (lit "id")
  | Some _ =>
      match dict_get d (lit "name") with
      | None => Some (lit "name")
      | Some _ =>
          match dict_get d (lit "storage_path") with
          | None => Some (lit "storage_path")
          | Some _ => None
          end
      end
  end.

(** The error box [run_command] shows for a process that exited nonzero. *)
Definition command_failed (done : CompletedProcess) : event :=
  Showerror (lit "Error")
    (lit "Command failed:" ++ nl
       ++ str_or (strip (stderr done)) (strip (stdout done))).

(** The state [s] with its trace extended by [evs]. *)
Definition logged {P} (s : state P) (evs : list event) : state P :=
  {| tree := tree s; selection := selection s; status_var := status_var s;
     world := world s; trace := trace s ++ evs |}.

(** The number of process invocations among [evs]. *)
Fixpoint invocations (evs : list event) : nat :=
  match evs with
  | [] => 0
  | Subprocess_run _ :: evs' => S (invocations evs')
  | _ :: evs' => invocations evs'
  end.

(** Every selected position is a row of the table. *)
Definition selection_in_table {P} (s : state P) : Prop :=
  Forall (fun i => i < List.length (tree s)) (selection s).

(** The proxy cell of a row reads "yes" or "no". *)
Definition proxy_cell_yes_no (it : item) : Prop :=
  col_Proxy it = PStr (lit "yes") \/ col_Proxy it = PStr (lit "no").

(** The gestures that dismiss a dialog without submitting it. *)
Definition dismisses (g : gesture) : Prop :=
  g = Click_Cancel \/ g = Press_Escape \/ g = Close_window.

(** The gestures that only edit a field. *)
Definition typing (g : gesture) : bool :=
  match g with
  | Type_name _ | Type_storage _ | Type_proxy _ => true
  | _ => false
  end.

(** A dialog result whose fields are as [ok_clicked] stores them: the name
    not empty, and no field with whitespace at either end. *)
Definition trimmed_result (r : dialog_result) : Prop :=
  nonempty (result_name r) = true
  /\ strip (result_name r) = result_name r
  /\ strip (result_storage_path r) = result_storage_path r
  /\ strip (result_proxy r) = result_proxy r.

(** The error box for a command line whose fourth element reads back from
    the table as an [int]. *)
Definition int_item_error : event :=
  Showerror (lit "Error")
    (lit "Failed to run command: sequence item 3: expected str instance, int found").

(** What holds of a dialog all the time it is open, and when it has
    returned: no result while it is open, and only trimmed results. *)
Definition dialog_ok (d : ProfileDialog) : Prop :=
  (dialog_exists d = true -> result d = None)
  /\ (forall r, result d = Some r -> trimmed_result r).

(** An option and its value on the command line, left out when the value
    is empty. *)
Definition flag (name : string) (value : str) : list str :=
  if nonempty value then [lit name; value] else [].

(** A computation keeps a property of the table and the selection. *)
Definition keeps {P A} (J : list item -> list nat -> Prop) (c : M P A)
  : Prop :=
  forall s, J (tree s) (selection s) ->
            J (tree (final (c s))) (selection (final (c s))).

(** ** Startup and the event loop *)

Section Startup.

Variable P : platform.

(** The window as [setup_ui] leaves it: no row, the status bar at "Ready". *)
Definition initial_state (w : World P) : state P :=
  {| tree := []; selection := []; status_var := lit "Ready";
     world := w; trace := [] |}.

(** The buttons of the main window, with what the user goes on to do in
    the dialog or the confirmation box a button opens. *)
Inductive button :=
| Create_Profile (user : list gesture)
| Edit_Profile (user : list gesture)
| Delete_Profile (user : option bool)
| Open_Profile
| Refresh.

(** The [command=] of each button. *)
Definition command (b : button) : M P unit :=
  match b with
  | Create_Profile user => create_profile user
  | Edit_Profile user => edit_profile user
  | Delete_Profile user => delete_profile user
  | Open_Profile => @open_profile P
  | Refresh => @refresh_profiles P
  end.

(** [root.mainloop()] over the clicks to come: Tk reports an exception that
    escapes a callback and goes on with the next event; a callback that
    never returns keeps the loop from serving anything after it. *)
Fixpoint mainloop (clicks : list button) (s : state P) : state P :=
  match clicks with
  | [] => s
  | b :: clicks' =>
      match command b s with
      | Ret _ s' => mainloop clicks' s'
      | Raise _ s' => mainloop clicks' s'
      | Blocked s' => s'
      end
  end.

(** How [main] ends, or what it is left doing. *)
Inductive run :=
| Exited (code : Z) (printed : list str)
| Interactive (s : state P)
| Traceback (e : exn) (s : state P)
| Waiting (s : state P).

(** [main()]: [path_exists] is [Path(p).exists()] and [cwd] is
    [os.getcwd()]; [CamoufoxProfileGUI(root)] sets the window up and
    refreshes the table once before [root.mainloop()] is entered. *)
Definition main (path_exists : str -> bool) (cwd : str) (w : World P)
  : run :=
  if negb (path_exists (lit "scripts/manage_camoufox_profiles.py")) then
    Exited 1
      [lit "Error: This script must be run from the content-pin-generator directory";
       lit "Current directory: " ++ cwd]
  else if negb (path_exists (lit ".venv/bin/python")) then
    Exited 1
      [lit "Error: Virtual environment not found at .venv/bin/python";
       lit "Please make sure the virtual environment is properly set up."]
  else
    match refresh_profiles (initial_state w) with
    | Ret _ s => Interactive s
    | Raise e s => Traceback e s
    | Blocked s => Waiting s
    end.

End Startup.

Arguments Exited {P} code printed.

(** ** A platform to run the examples on

    The world is the list of the results the coming child processes will
    have, in order; once it is used up, spawning fails.  The decoder is
    [Json.loads]; a cell that was inserted as a string or an integer reads
    back as such, any other as the empty string. *)

Module Fixture.

Definition spawn_failure : exn :=
  Exn (OtherException (lit "FileNotFoundError"))
      (lit "[Errno 2] No such file or directory: '.venv/bin/python'").

Definition scripted_run (args : list str)
  (w : list (exn + CompletedProcess))
  : option ((exn + CompletedProcess) * list (exn + CompletedProcess)) :=
  match w with
  | r :: w' => Some (r, w')
  | [] => Some (inl spawn_failure, [])
  end.

Definition readback (v : pyval) : tk_val :=
  match v with
  | PInt z => TkInt z
  | PStr s => TkStr s
  | _ => TkStr []
  end.


Definition platform : platform :=
  {| World := list (exn + CompletedProcess);
     subprocess_run := scripted_run;
     json_loads := Json.loads;
     json_loads_empty := ltac:(intros v H; discriminate H);
     cell_readback := readback;
     python_path := lit "/app/.venv/bin/python";
     script_path := lit "/app/scripts/manage_camoufox_profiles.py" |}.

Definition exited (code : Z) (out err : string) : exn + CompletedProcess :=
  inr {| returncode := code; stdout := lit out; stderr := lit err |}.

Definition row (id name storage_path proxy : string) : item :=
  {| col_ID := PStr (lit id); col_Name := PStr (lit name);
     col_Storage_Path := PStr (lit storage_path);
     col_Proxy := PStr (lit proxy) |}.

(** A window that shows [rows], the first of them selected when [selected]
    is set, in a world with the given process results to come. *)
Definition window (rows : list item) (selected : bool)
  (w : list (exn + CompletedProcess)) : state platform :=
  @Build_state platform rows (if selected then [0] else []) (lit "Ready") w [].

(** JSON text, written with ['] for the double quote. *)
Definition json_text (s : string) : str :=
  map (fun c => if Json.eqc "'" c then 34%N else c) (lit s).

(** The output of [list --json] for one profile with a proxy. *)
Definition one_profile_json : str :=
  json_text
    "[{'id':'p1','name':'A','storage_path':'default','proxy_host':'1.2.3.4'}]".

(** The output of [list --json] when the second profile has lost its name
    and storage path. *)
Definition broken_profiles_json : str :=
  json_text
    "[{'id':'p1','name':'A','storage_path':'default'},{'id':'p2'}]".

(** The table with the one profile [p1], without proxy. *)
Definition p1_row : item := row "p1" "A" "default" "no".

(** The create dialog after the user typed three spaces for a name. *)
Definition blank_dialog : ProfileDialog :=
  {| dialog_title := lit "Create New Profile";
     name_var := lit "   "; storage_var := lit "/data/p9"; proxy_var := [];
     result := None; dialog_exists := true |}.

(** The table with [p1] selected, and a tool whose next run fails. *)
Definition refused : state platform :=
  window [p1_row] true [exited 1 "" "refused"].

(** A profile whose id is a number: its cell reads back as an [int]. *)
Definition numbered_row : item :=
  {| col_ID := PInt 42; col_Name := PStr (lit "N");
     col_Storage_Path := PStr (lit "default"); col_Proxy := PStr (lit "no") |}.

(** The output of [list --json] that is a number, and one whose second
    element is a string. *)
Definition stray_element_json : str :=
  json_text "[{'id':'p1','name':'A','storage_path':'default'},'p2']".

(** A working directory that holds the script and the interpreter, and one
    that holds neither. *)
Definition project_dir (p : str) : bool :=
  str_eqb p (lit "scripts/manage_camoufox_profiles.py")
  || str_eqb p (lit ".venv/bin/python").


End Fixture.

(** * Properties *)

Unset Implicit Arguments.

(** ** The decoder on sample texts *)

Example loads_empty_array : Json.loads (lit "[]") = inr (PList []).
Proof. vm_compute. reflexivity. Qed.

Example loads_one_profile :
  Json.loads Fixture.one_profile_json =
  inr (PList [PDict [(lit "id", PStr (lit "p1"));
                     (lit "name", PStr (lit "A"));
                     (lit "storage_path", PStr (lit "default"));
                     (lit "proxy_host", PStr (lit "1.2.3.4"))]]).
Proof. vm_compute. reflexivity. Qed.

Example loads_nothing :
  Json.loads [] =
  inl (Exn JSONDecodeError (lit "Expecting value: line 1 column 1 (char 0)")).
Proof. vm_compute. reflexivity. Qed.

Example loads_repeated_key :
  Json.loads (Fixture.json_text "{'a': 1, 'b': null, 'a': -2}") =
  inr (PDict [(lit "a", PInt (-2)); (lit "b", PNone)]).
Proof. vm_compute. reflexivity. Qed.

Example loads_numbers :
  Json.loads (lit "[0.1, -0, -0.0, 1e400, 1e-400]") =
  inr (PList [PFloat (S754_finite false 7205759403792794 (-56));
              PInt 0; PFloat (S754_zero true);
              PFloat (S754_infinity false); PFloat (S754_zero false)]).
Proof. vm_compute. reflexivity. Qed.

Example loads_unterminated :
  Json.loads (Fixture.json_text "[1, 'ab") =
  inl (Exn JSONDecodeError
         (lit "Unterminated string starting at: line 1 column 5 (char 4)")).
Proof. vm_compute. reflexivity. Qed.

Example loads_extra_data :
  Json.loads (lit "[] []") =
  inl (Exn JSONDecodeError (lit "Extra data: line 1 column 4 (char 3)")).
Proof. vm_compute. reflexivity. Qed.

(** What [str.strip()] takes away includes the wide and the no-break
    space. *)
Example strip_unicode_space :
  strip ([12288%N; 160%N] ++ lit " A b " ++ [9%N; 8195%N]) = lit "A b".
Proof. reflexivity. Qed.

Section Spec.

Variable P : platform.

(** ** The trace only grows *)

Lemma grows_ret A (a : A) : grows (@ret P A a).
Proof. intros s. exists []. cbn. now rewrite app_nil_r. Qed.

Lemma grows_raise A (e : exn) : grows (@raise P A e).
Proof. intros s. exists []. cbn. now rewrite app_nil_r. Qed.

Lemma grows_blocked A : grows (@blocked P A).
Proof. intros s. exists []. cbn. now rewrite app_nil_r. Qed.

Lemma grows_lift A (r : exn + A) : grows (@lift P A r).
Proof. destruct r; [apply grows_raise | apply grows_ret]. Qed.

Lemma grows_bind A B (c : M P A) (k : A -> M P B) :
  grows c -> (forall a, grows (k a)) -> grows (bind c k).
Proof.
  intros Hc Hk s. unfold bind. destruct (Hc s) as [evs Hevs].
  destruct (c s) as [a s1 | e s1 | s1]; cbn in Hevs.
  - destruct (Hk a s1) as [evs' Hevs']. exists (evs ++ evs').
    rewrite Hevs', Hevs. now rewrite app_assoc.
  - now exists evs.
  - now exists evs.
Qed.

Lemma grows_try_except A (body : M P A) handles (handler : exn -> M P A) :
  grows body -> (forall e, grows (handler e)) ->
  grows (try_except body handles handler).
Proof.
  intros Hb Hh s. unfold try_except. destruct (Hb s) as [evs Hevs].
  destruct (body s) as [a s1 | e s1 | s1]; cbn in Hevs.
  - now exists evs.
  - destruct (handles e).
    + destruct (Hh e s1) as [evs' Hevs']. exists (evs ++ evs').
      rewrite Hevs', Hevs. now rewrite app_assoc.
    + now exists evs.
  - now exists evs.
Qed.

Lemma grows_try_finally A (body : M P A) (cleanup : M P unit) :
  grows body -> grows cleanup -> grows (try_finally body cleanup).
Proof.
  intros Hb Hf s. unfold try_finally. destruct (Hb s) as [evs Hevs].
  destruct (body s) as [a s1 | e s1 | s1]; cbn in Hevs.
  - destruct (grows_bind _ _ _ _ Hf (fun _ => grows_ret A a) s1)
      as [evs' Hevs'].
    exists (evs ++ evs'). rewrite Hevs', Hevs. now rewrite app_assoc.
  - destruct (grows_bind _ A _ _ Hf (fun _ => grows_raise A e) s1)
      as [evs' Hevs'].
    exists (evs ++ evs'). rewrite Hevs', Hevs. now rewrite app_assoc.
  - now exists evs.
Qed.

Lemma grows_modify (f : state P -> state P) :
  (forall s, trace (f s) = trace s) -> grows (modify f).
Proof. intros Hf s. exists []. cbn. rewrite Hf. now rewrite app_nil_r. Qed.

Lemma grows_gets A (f : state P -> A) : grows (gets f).
Proof. intros s. exists []. cbn. now rewrite app_nil_r. Qed.

Lemma grows_log (e : event) : grows (@log P e).
Proof. intros s. now exists [e]. Qed.

Lemma grows_for_each A (xs : list A) (body : A -> M P unit) :
  (forall x, grows (body x)) -> grows (for_each xs body).
Proof.
  intros Hb. induction xs as [|x xs IH]; cbn [for_each].
  - apply grows_ret.
  - apply grows_bind; auto.
Qed.

Lemma grows_run_subprocess args : grows (@run_subprocess P args).
Proof.
  intros s. unfold run_subprocess, bind, log, modify. cbn.
  destruct (subprocess_run P args (world s)) as [[[e|done] w]|]; cbn;
    now exists [Subprocess_run args].
Qed.

Lemma grows_if A (b : bool) (c1 c2 : M P A) :
  grows c1 -> grows c2 -> grows (if b then c1 else c2).
Proof. now destruct b. Qed.

(** What a computation has logged stays at the head of what its
    continuation logs. *)
Lemma bind_trace_after A B (c : M P A) (k : A -> M P B) (s : state P)
  (pre : list event) :
  (exists evs, trace (final (c s)) = pre ++ evs) ->
  (forall a, grows (k a)) ->
  exists evs, trace (final (bind c k s)) = pre ++ evs.
Proof.
  intros [evs Hevs] Hk. unfold bind.
  destruct (c s) as [a s1 | e s1 | s1]; cbn [final] in Hevs.
  - destruct (Hk a s1) as [evs' Hevs']. exists (evs ++ evs').
    rewrite Hevs', Hevs. now rewrite app_assoc.
  - now exists evs.
  - now exists evs.
Qed.

Ltac grows_step :=
  first
    [ progress intros
    | apply grows_run_subprocess
    | apply grows_ret | apply grows_raise | apply grows_blocked
    | apply grows_lift | apply grows_gets | apply grows_log
    | (apply grows_modify; intros ?; reflexivity)
    | apply grows_try_except | apply grows_try_finally
    | apply grows_for_each | apply grows_if
    | apply grows_bind ].

Ltac grows_tac := repeat grows_step.

Lemma grows_run_command cmd show : grows (@run_command P cmd show).
Proof. unfold run_command, showinfo, showerror, set_status. grows_tac. Qed.

Lemma grows_insert_profile o : grows (@insert_profile P o).
Proof. unfold insert_profile, tree_insert. grows_tac. Qed.

Lemma grows_refresh_profiles : grows (@refresh_profiles P).
Proof.
  unfold refresh_profiles, set_status, tree_delete_children.
  apply grows_bind; [grows_tac|intros _].
  apply grows_bind; [grows_tac|intros _].
  apply grows_bind; [apply grows_run_command|intros [out|]]; [|grows_tac].
  apply grows_if; [|grows_tac].
  apply grows_try_except.
  - apply grows_bind; [grows_tac|intros profiles].
    apply grows_bind; [grows_tac|intros elements].
    apply grows_bind; [|grows_tac].
    apply grows_for_each. apply grows_insert_profile.
  - intros e. unfold showerror. grows_tac.
Qed.

Lemma grows_dispatch g d : grows (@dispatch P g d).
Proof.
  destruct g; cbn [dispatch]; unfold ok_clicked, cancel_clicked, showerror;
    grows_tac.
Qed.

Lemma grows_wait_window user : forall d, grows (@wait_window P d user).
Proof.
  induction user as [|g user IH]; intros d; cbn [wait_window];
    destruct (dialog_exists d); grows_tac.
  - apply grows_dispatch.
  - apply IH.
Qed.

Lemma grows_ProfileDialog_init title initial_data user :
  grows (@ProfileDialog_init P title initial_data user).
Proof.
  unfold ProfileDialog_init. apply grows_bind; [apply grows_log|intros _].
  apply grows_wait_window.
Qed.

(** ** [run_command] *)

Lemma str_items_strs (args : list str) :
  forall i, str_items i (map TkStr args) = inr args.
Proof.
  induction args as [|a args IH]; intros i; cbn [map str_items].
  - reflexivity.
  - now rewrite IH.
Qed.

(** The whole of [run_command] on a command line made of strings, by the
    result of the child process. *)
Lemma run_command_args (cmd : list tk_val) (args : list str) (show : bool)
  (s : state P) :
  str_items 0 cmd = inr args ->
  run_command cmd show s =
  match subprocess_run P args (world s) with
  | Some (inr done, w) =>
      if (returncode done =? 0)%Z then
        Ret (Some (stdout done))
          {| tree := tree s; selection := selection s;
             status_var := lit "Ready"; world := w;
             trace := trace s ++ Subprocess_run args ::
                (if show && nonempty (strip (stdout done))
                 then [Showinfo (lit "Command Output") (stdout done)]
                 else []) |}
      else
        Ret None
          {| tree := tree s; selection := selection s;
             status_var := lit "Ready"; world := w;
             trace := trace s ++
                [Subprocess_run args;
                 Showerror (lit "Error")
                   (lit "Command failed:" ++ nl
                      ++ str_or (strip (stderr done)) (strip (stdout done)))] |}
  | Some (inl e, w) =>
      Ret None
        {| tree := tree s; selection := selection s;
           status_var := lit "Ready"; world := w;
           trace := trace s ++
              [Subprocess_run args;
               Showerror (lit "Error")
                 (lit "Failed to run command: " ++ exn_str e)] |}
  | None =>
      Blocked
        {| tree := tree s; selection := selection s;
           status_var := lit "Running: " ++ join (lit " ") args;
           world := world s;
           trace := trace s ++ [Subprocess_run args] |}
  end.
Proof.
  intros Hargs. unfold run_command, try_finally, try_except, bind at 1.
  unfold bind at 1. rewrite Hargs.
  cbn [lift ret]. unfold bind at 1. cbn [set_status modify].
  unfold run_subprocess, bind, log, modify.
  cbn [world trace tree selection status_var].
  destruct (subprocess_run P args (world s)) as [[[e|done] w]|].
  - cbn. rewrite <- app_assoc. reflexivity.
  - destruct (returncode done =? 0)%Z.
    + destruct (show && nonempty (strip (stdout done))); cbn;
        rewrite <- ?app_assoc; reflexivity.
    + cbn. rewrite <- app_assoc. reflexivity.
  - reflexivity.
Qed.

(** A command line with an element that is not a string never reaches
    [subprocess.run]: joining it for the status bar already raises. *)
Lemma run_command_not_str (cmd : list tk_val) (e : exn) (show : bool)
  (s : state P) :
  str_items 0 cmd = inl e ->
  run_command cmd show s =
  Ret None
    {| tree := tree s; selection := selection s;
       status_var := lit "Ready"; world := world s;
       trace := trace s ++
          [Showerror (lit "Error")
             (lit "Failed to run command: " ++ exn_str e)] |}.
Proof.
  intros Hargs. unfold run_command, try_finally, try_except, bind at 1.
  unfold bind at 1. rewrite Hargs. reflexivity.
Qed.

Lemma run_command_keeps_table cmd show (s : state P) :
  tree (final (run_command cmd show s)) = tree s
  /\ selection (final (run_command cmd show s)) = selection s.
Proof.
  destruct (str_items 0 cmd) as [e|args] eqn:Hargs.
  - now rewrite (run_command_not_str _ _ _ _ Hargs).
  - rewrite (run_command_args _ _ _ _ Hargs).
    destruct (subprocess_run P args (world s)) as [[[e|done] w]|];
      [easy| |easy].
    now destruct (returncode done =? 0)%Z.
Qed.

(** C8: when the child process exits nonzero, [run_command] shows an error
    box whose text is the trimmed stderr, or the trimmed stdout when the
    trimmed stderr is empty, after the fixed heading, and returns [None]; when
    the process cannot be spawned, the exception is shown in an error box in
    the same way and [None] is returned; on exit zero it returns the captured
    stdout. *)
Theorem run_command_surfaces_failure (cmd : list tk_val) (args : list str)
  (show_output : bool) (s : state P) :
  str_items 0 cmd = inr args ->
  (forall done w,
      subprocess_run P args (world s) = Some (inr done, w) ->
      returncode done <> 0%Z ->
      run_command cmd show_output s =
      Ret None
        {| tree := tree s; selection := selection s;
           status_var := lit "Ready"; world := w;
           trace := trace s ++
              [Subprocess_run args;
               Showerror (lit "Error")
                 (lit "Command failed:" ++ nl
                    ++ (if nonempty (strip (stderr done))
                        then strip (stderr done)
                        else strip (stdout done)))] |})
  /\ (forall e w,
        subprocess_run P args (world s) = Some (inl e, w) ->
        run_command cmd show_output s =
        Ret None
          {| tree := tree s; selection := selection s;
             status_var := lit "Ready"; world := w;
             trace := trace s ++
                [Subprocess_run args;
                 Showerror (lit "Error")
                   (lit "Failed to run command: " ++ exn_str e)] |})
  /\ (forall done w,
        subprocess_run P args (world s) = Some (inr done, w) ->
        returncode done = 0%Z ->
        run_command cmd show_output s =
        Ret (Some (stdout done))
          {| tree := tree s; selection := selection s;
             status_var := lit "Ready"; world := w;
             trace := trace s ++
                Subprocess_run args ::
                (if show_output && nonempty (strip (stdout done))
                 then [Showinfo (lit "Command Output") (stdout done)]
                 else []) |}).
Proof.
  intros Hargs. repeat split.
  - intros done w Hrun Hcode. rewrite (run_command_args _ _ _ _ Hargs), Hrun.
    apply Z.eqb_neq in Hcode. now rewrite Hcode.
  - intros e w Hrun. now rewrite (run_command_args _ _ _ _ Hargs), Hrun.
  - intros done w Hrun Hcode. rewrite (run_command_args _ _ _ _ Hargs), Hrun.
    now rewrite Hcode.
Qed.

(** ** [refresh_profiles] *)

Lemma list_cmd_args : str_items 0 (list_cmd P) = inr (list_args P).
Proof. reflexivity. Qed.

(** [refresh_profiles] up to the decoding of the output. *)
Lemma refresh_profiles_listing (s : state P) :
  refresh_profiles s =
  match subprocess_run P (list_args P) (world s) with
  | Some (inr done, w) =>
      if (returncode done =? 0)%Z then
        let s1 := {| tree := []; selection := []; status_var := lit "Ready";
                     world := w;
                     trace := trace s ++ [Subprocess_run (list_args P)] |} in
        if nonempty (stdout done) then
          try_except
            (bind (lift (json_loads P (stdout done))) (fun profiles =>
             bind (lift (iterate profiles)) (fun elements =>
             bind (for_each elements (@insert_profile P)) (fun _ =>
             set_status (lit "Loaded " ++ str_of_nat (len profiles)
                           ++ lit " profiles")))))
            is_JSONDecodeError
            (fun e =>
               bind (showerror (lit "Error")
                       (lit "Failed to parse profiles: " ++ exn_str e))
                    (fun _ => set_status (lit "Error loading profiles")))
            s1
        else Ret tt s1
      else
        Ret tt
          {| tree := []; selection := []; status_var := lit "Ready";
             world := w;
             trace := trace s ++
                [Subprocess_run (list_args P);
                 Showerror (lit "Error")
                   (lit "Command failed:" ++ nl
                      ++ str_or (strip (stderr done)) (strip (stdout done)))] |}
  | Some (inl e, w) =>
      Ret tt
        {| tree := []; selection := []; status_var := lit "Ready";
           world := w;
           trace := trace s ++
              [Subprocess_run (list_args P);
               Showerror (lit "Error")
                 (lit "Failed to run command: " ++ exn_str e)] |}
  | None =>
      Blocked
        {| tree := []; selection := [];
           status_var := lit "Running: " ++ join (lit " ") (list_args P);
           world := world s;
           trace := trace s ++ [Subprocess_run (list_args P)] |}
  end.
Proof.
  unfold refresh_profiles. unfold bind at 1. cbn [set_status modify].
  unfold bind at 1. cbn [tree_delete_children modify].
  unfold bind at 1. rewrite (run_command_args _ _ _ _ list_cmd_args).
  cbn [world trace tree selection status_var].
  destruct (subprocess_run P (list_args P) (world s)) as [[[e|done] w]|];
    [reflexivity| |reflexivity].
  destruct (returncode done =? 0)%Z; [|reflexivity].
  cbn [andb]. now destruct (nonempty (stdout done)).
Qed.

Lemma proxy_host_truthy_get (d : list (str * pyval)) :
  proxy_host_truthy d <->
  truthy (match dict_get d (lit "proxy_host") with
          | Some x => x
          | None => PNone
          end) = true.
Proof.
  unfold proxy_host_truthy. split.
  - intros [v [Hget Hv]]. now rewrite Hget.
  - destruct (dict_get d (lit "proxy_host")) as [v|]; [|discriminate].
    intros Hv. now exists v.
Qed.

Lemma insert_profile_row (o : pyval) (it : item) (s : state P) :
  row_of o it ->
  insert_profile o s =
  Ret tt {| tree := tree s ++ [it]; selection := selection s;
            status_var := status_var s; world := world s;
            trace := trace s |}.
Proof.
  intros [d [-> [Hid [Hname [Hpath [Hyes Hno]]]]]].
  unfold insert_profile, bind. cbn [get_method getitem lift ret].
  rewrite Hid, Hname, Hpath. cbn [lift ret tree_insert modify].
  destruct it as [i n p x];
    cbn [col_ID col_Name col_Storage_Path col_Proxy] in *.
  assert (Hx : x = PStr (if truthy match dict_get d (lit "proxy_host") with
                                   | Some v => v
                                   | None => PNone
                                   end
                         then lit "yes" else lit "no")).
  { destruct (truthy _) eqn:Ht.
    - apply Hyes. now apply proxy_host_truthy_get.
    - apply Hno. intros H. apply proxy_host_truthy_get in H. congruence. }
  now rewrite <- Hx.
Qed.

Lemma insert_profile_missing (d : list (str * pyval)) (key : str)
  (s : state P) :
  first_missing_key d = Some key ->
  insert_profile (PDict d) s =
  Raise (Exn KeyError (lit "'" ++ key ++ lit "'")) s.
Proof.
  unfold first_missing_key, insert_profile, bind.
  cbn [get_method getitem lift ret].
  destruct (dict_get d (lit "id")); cbn [lift ret raise].
  - destruct (dict_get d (lit "name")); cbn [lift ret raise].
    + destruct (dict_get d (lit "storage_path")); cbn [lift ret raise];
        [discriminate|].
      now intros [= <-].
    + now intros [= <-].
  - now intros [= <-].
Qed.

Lemma for_each_rows (objs : list pyval) (rows : list item) :
  Forall2 row_of objs rows ->
  forall s : state P,
    for_each objs (@insert_profile P) s =
    Ret tt {| tree := tree s ++ rows; selection := selection s;
              status_var := status_var s; world := world s;
              trace := trace s |}.
Proof.
  induction 1 as [|o it objs rows Hrow _ IH]; intros s; cbn [for_each].
  - rewrite app_nil_r. now destruct s.
  - unfold bind. rewrite (insert_profile_row _ _ _ Hrow), IH.
    cbn [tree selection status_var world trace].
    now rewrite <- app_assoc.
Qed.

Lemma for_each_missing (pre post : list pyval) (rows : list item)
  (d : list (str * pyval)) (key : str) :
  Forall2 row_of pre rows ->
  first_missing_key d = Some key ->
  forall s : state P,
    for_each (pre ++ PDict d :: post) (@insert_profile P) s =
    Raise (Exn KeyError (lit "'" ++ key ++ lit "'"))
      {| tree := tree s ++ rows; selection := selection s;
         status_var := status_var s; world := world s;
         trace := trace s |}.
Proof.
  intros Hrows Hkey.
  induction Hrows as [|o it pre rows Hrow _ IH]; intros s;
    cbn [for_each app]; unfold bind.
  - rewrite (insert_profile_missing _ _ _ Hkey), app_nil_r. now destruct s.
  - rewrite (insert_profile_row _ _ _ Hrow), IH.
    cbn [tree selection status_var world trace].
    now rewrite <- app_assoc.
Qed.

Lemma decoded_output_nonempty (out : str) (v : pyval) :
  json_loads P out = inr v -> nonempty out = true.
Proof.
  destruct out as [|c out]; [|reflexivity].
  intros H. now apply json_loads_empty in H.
Qed.

(** Objects that have the three keys have rows. *)
Lemma rows_exist (objs : list pyval) :
  (forall o, In o objs -> exists d, o = PDict d /\ first_missing_key d = None) ->
  exists rows, Forall2 row_of objs rows.
Proof.
  induction objs as [|o objs IH]; intros Hall.
  - exists []. constructor.
  - destruct IH as [rows Hrows]; [intros o' Ho'; apply Hall; now right|].
    destruct (Hall o (or_introl eq_refl)) as [d [-> Hkeys]].
    unfold first_missing_key in Hkeys.
    destruct (dict_get d (lit "id")) as [i|] eqn:Hid; [|discriminate].
    destruct (dict_get d (lit "name")) as [n|] eqn:Hname; [|discriminate].
    destruct (dict_get d (lit "storage_path")) as [p|] eqn:Hpath;
      [|discriminate].
    set (b := truthy match dict_get d (lit "proxy_host") with
                     | Some v => v
                     | None => PNone
                     end).
    exists ({| col_ID := i; col_Name := n; col_Storage_Path := p;
               col_Proxy := PStr (if b then lit "yes" else lit "no") |}
              :: rows).
    constructor; [|exact Hrows].
    exists d. cbn [col_ID col_Name col_Storage_Path col_Proxy].
    repeat split; try assumption.
    + intros H. apply proxy_host_truthy_get in H. fold b in H. now rewrite H.
    + intros H. destruct b eqn:Hb; [|reflexivity].
      exfalso. apply H. now apply proxy_host_truthy_get.
Qed.

Lemma row_of_proxy_column (o : pyval) (it : item) :
  row_of o it ->
  exists d,
    o = PDict d
    /\ (col_Proxy it = PStr (lit "yes") <-> proxy_host_truthy d)
    /\ (col_Proxy it = PStr (lit "no") <-> ~ proxy_host_truthy d).
Proof.
  intros [d [-> [_ [_ [_ [Hyes Hno]]]]]]. exists d. split; [reflexivity|].
  assert (Hdec : proxy_host_truthy d \/ ~ proxy_host_truthy d).
  { destruct (truthy match dict_get d (lit "proxy_host") with
                     | Some v => v
                     | None => PNone
                     end) eqn:Hb.
    - left. now apply proxy_host_truthy_get.
    - right. intros H. apply proxy_host_truthy_get in H. congruence. }
  split; split.
  - intros Hcol. destruct Hdec as [H|H]; [exact H|].
    rewrite (Hno H) in Hcol. discriminate Hcol.
  - exact Hyes.
  - intros Hcol H. rewrite (Hyes H) in Hcol. discriminate Hcol.
  - exact Hno.
Qed.

(** [refresh_profiles] on an output that decodes to a list of profile
    objects with rows. *)
Lemma refresh_profiles_rows (s : state P) (done : CompletedProcess)
  (w : World P) (objs : list pyval) (rows : list item) :
  subprocess_run P (list_args P) (world s) = Some (inr done, w) ->
  returncode done = 0%Z ->
  json_loads P (stdout done) = inr (PList objs) ->
  Forall2 row_of objs rows ->
  refresh_profiles s =
  Ret tt {| tree := rows; selection := [];
            status_var := lit "Loaded " ++ str_of_nat (List.length objs)
                            ++ lit " profiles";
            world := w;
            trace := trace s ++ [Subprocess_run (list_args P)] |}.
Proof.
  intros Hrun Hcode Hjson Hrows.
  rewrite refresh_profiles_listing, Hrun, Hcode. cbn [Z.eqb].
  rewrite (decoded_output_nonempty _ _ Hjson). cbv zeta.
  unfold try_except, bind at 1. rewrite Hjson. cbn [lift ret].
  unfold bind at 1. cbn [iterate lift ret].
  unfold bind at 1. rewrite (for_each_rows _ _ Hrows). reflexivity.
Qed.

(** C9: when the [list] invocation succeeds and its output decodes to the
    empty array, the refreshed table has no row and the status bar reads
    "Loaded 0 profiles". *)
Theorem refresh_empty_array (s : state P) (done : CompletedProcess)
  (w : World P) :
  subprocess_run P (list_args P) (world s) = Some (inr done, w) ->
  returncode done = 0%Z ->
  json_loads P (stdout done) = inr (PList []) ->
  refresh_profiles s =
  Ret tt {| tree := []; selection := [];
            status_var := lit "Loaded 0 profiles"; world := w;
            trace := trace s ++ [Subprocess_run (list_args P)] |}.
Proof.
  intros Hrun Hcode Hjson.
  exact (refresh_profiles_rows s done w [] [] Hrun Hcode Hjson
           (Forall2_nil row_of)).
Qed.

(** C10: when the output decodes to an array in which the objects before
    some position all have the keys [id], [name] and [storage_path] and the
    object at that position lacks one of them, the refresh ends in a
    [KeyError] for the first missing key, which the handler for
    [JSONDecodeError] does not catch, and the rows of the preceding objects
    stay in the table. *)
Theorem refresh_missing_key_keeps_partial_rows (s : state P)
  (done : CompletedProcess) (w : World P) (pre post : list pyval)
  (rows : list item) (d : list (str * pyval)) (key : str) :
  subprocess_run P (list_args P) (world s) = Some (inr done, w) ->
  returncode done = 0%Z ->
  json_loads P (stdout done) = inr (PList (pre ++ PDict d :: post)) ->
  Forall2 row_of pre rows ->
  first_missing_key d = Some key ->
  refresh_profiles s =
  Raise (Exn KeyError (lit "'" ++ key ++ lit "'"))
    {| tree := rows; selection := []; status_var := lit "Ready"; world := w;
       trace := trace s ++ [Subprocess_run (list_args P)] |}
  /\ In key [lit "id"; lit "name"; lit "storage_path"]
  /\ List.length rows = List.length pre.
Proof.
  intros Hrun Hcode Hjson Hrows Hkey. split; [|split].
  - rewrite refresh_profiles_listing, Hrun, Hcode. cbn [Z.eqb].
    rewrite (decoded_output_nonempty _ _ Hjson). cbv zeta.
    unfold try_except, bind at 1. rewrite Hjson. cbn [lift ret].
    unfold bind at 1. cbn [iterate lift ret].
    unfold bind at 1. rewrite (for_each_missing _ _ _ _ _ Hrows Hkey).
    reflexivity.
  - unfold first_missing_key in Hkey.
    destruct (dict_get d (lit "id")); [|injection Hkey as <-; now left].
    destruct (dict_get d (lit "name"));
      [|injection Hkey as <-; right; now left].
    destruct (dict_get d (lit "storage_path")); [discriminate|].
    injection Hkey as <-. right; right; now left.
  - symmetry. exact (Forall2_length Hrows).
Qed.

(** C1, as the code has it: when the [list] invocation fails (nonzero
    exit, spawn failure, or a non-empty output that [json.loads] rejects with
    a [JSONDecodeError]), the refresh shows an error box and returns with the
    table empty: the rows were deleted before the invocation and none is
    inserted. *)
Theorem refresh_failure_leaves_table_empty (s : state P) :
  (forall done w,
      subprocess_run P (list_args P) (world s) = Some (inr done, w) ->
      returncode done <> 0%Z ->
      refresh_profiles s =
      Ret tt
        {| tree := []; selection := []; status_var := lit "Ready";
           world := w;
           trace := trace s ++
              [Subprocess_run (list_args P);
               Showerror (lit "Error")
                 (lit "Command failed:" ++ nl
                    ++ str_or (strip (stderr done)) (strip (stdout done)))] |})
  /\ (forall e w,
        subprocess_run P (list_args P) (world s) = Some (inl e, w) ->
        refresh_profiles s =
        Ret tt
          {| tree := []; selection := []; status_var := lit "Ready";
             world := w;
             trace := trace s ++
                [Subprocess_run (list_args P);
                 Showerror (lit "Error")
                   (lit "Failed to run command: " ++ exn_str e)] |})
  /\ (forall done w e,
        subprocess_run P (list_args P) (world s) = Some (inr done, w) ->
        returncode done = 0%Z ->
        nonempty (stdout done) = true ->
        json_loads P (stdout done) = inl e ->
        is_JSONDecodeError e = true ->
        refresh_profiles s =
        Ret tt
          {| tree := []; selection := [];
             status_var := lit "Error loading profiles"; world := w;
             trace := trace s ++
                [Subprocess_run (list_args P);
                 Showerror (lit "Error")
                   (lit "Failed to parse profiles: " ++ exn_str e)] |}).
Proof.
  repeat split.
  - intros done w Hrun Hcode. rewrite refresh_profiles_listing, Hrun.
    apply Z.eqb_neq in Hcode. now rewrite Hcode.
  - intros e w Hrun. now rewrite refresh_profiles_listing, Hrun.
  - intros done w e Hrun Hcode Hout Hjson Hcls.
    rewrite refresh_profiles_listing, Hrun, Hcode. cbn [Z.eqb].
    rewrite Hout. cbv zeta.
    unfold try_except, bind at 1. rewrite Hjson. cbn [lift raise].
    rewrite Hcls. unfold bind, showerror, log, set_status, modify.
    cbn [tree selection status_var world trace].
    now rewrite <- app_assoc.
Qed.

(** C6: when the output decodes to an array of objects that have the keys
    [id], [name] and [storage_path], the refreshed table has one row per
    object, in order, and the proxy column of a row is "yes" exactly when the
    object has a truthy [proxy_host], and "no" exactly when it has not.  For
    the output with the single profile [p1] whose [proxy_host] is "1.2.3.4",
    decoded by [Json.loads], the table is the one row of [p1] with "yes". *)
Theorem proxy_column_reflects_proxy_host (s : state P) :
  (forall done w objs,
      subprocess_run P (list_args P) (world s) = Some (inr done, w) ->
      returncode done = 0%Z ->
      json_loads P (stdout done) = inr (PList objs) ->
      (forall o, In o objs ->
                 exists d, o = PDict d /\ first_missing_key d = None) ->
      exists s',
        refresh_profiles s = Ret tt s'
        /\ Forall2
             (fun o it =>
                exists d,
                  o = PDict d
                  /\ (col_Proxy it = PStr (lit "yes") <-> proxy_host_truthy d)
                  /\ (col_Proxy it = PStr (lit "no")
                      <-> ~ proxy_host_truthy d))
             objs (tree s'))
  /\ (forall err w,
        json_loads P Fixture.one_profile_json
        = Json.loads Fixture.one_profile_json ->
        subprocess_run P (list_args P) (world s)
        = Some (inr {| returncode := 0; stdout := Fixture.one_profile_json;
                       stderr := err |}, w) ->
        exists s',
          refresh_profiles s = Ret tt s'
          /\ tree s' = [Fixture.row "p1" "A" "default" "yes"]).
Proof.
  split.
  - intros done w objs Hrun Hcode Hjson Hall.
    destruct (rows_exist _ Hall) as [rows Hrows].
    eexists. split.
    + exact (refresh_profiles_rows s done w objs rows Hrun Hcode Hjson Hrows).
    + cbn [tree]. clear - Hrows.
      induction Hrows as [|o it objs rows Hrow _ IH]; constructor;
        [now apply row_of_proxy_column | exact IH].
  - intros err w Hdecoder Hrun.
    assert (Hjson : json_loads P Fixture.one_profile_json
                    = inr (PList [PDict
                             [(lit "id", PStr (lit "p1"));
                              (lit "name", PStr (lit "A"));
                              (lit "storage_path", PStr (lit "default"));
                              (lit "proxy_host", PStr (lit "1.2.3.4"))]]))
      by (rewrite Hdecoder; vm_compute; reflexivity).
    eexists. split.
    + refine (refresh_profiles_rows s _ w _
                [Fixture.row "p1" "A" "default" "yes"] Hrun eq_refl Hjson _).
      constructor; [|constructor].
      eexists. split; [reflexivity|].
      repeat split; try reflexivity.
      intros H. exfalso. apply H. eexists. split; reflexivity.
    + reflexivity.
Qed.

(** ** The dialog *)

Lemma logged_nil (s : state P) : logged s [] = s.
Proof. destruct s. unfold logged. cbn. now rewrite app_nil_r. Qed.

Lemma logged_logged (s : state P) (evs evs' : list event) :
  logged (logged s evs) evs' = logged s (evs ++ evs').
Proof. unfold logged. cbn. now rewrite app_assoc. Qed.

(** A gesture is served without touching the window behind the dialog:
    it returns, and at most logs. *)
Lemma dispatch_logs (g : gesture) (d : ProfileDialog) (s : state P) :
  exists d' evs, dispatch g d s = Ret d' (logged s evs).
Proof.
  destruct g; cbn [dispatch]; unfold ok_clicked, cancel_clicked;
    try (eexists; exists []; rewrite logged_nil; reflexivity);
    destruct (negb (nonempty (strip (name_var d))));
    solve [ eexists; eexists; reflexivity
          | eexists; exists []; rewrite logged_nil; reflexivity ].
Qed.

Lemma wait_window_logs (user : list gesture) :
  forall (d : ProfileDialog) (s : state P),
    exists evs, final (wait_window d user s) = logged s evs.
Proof.
  induction user as [|g user IH]; intros d s; cbn [wait_window];
    destruct (dialog_exists d);
    try (exists []; rewrite logged_nil; reflexivity).
  unfold bind. destruct (dispatch_logs g d s) as [d' [evs ->]].
  destruct (IH d' (logged s evs)) as [evs' ->].
  exists (evs ++ evs'). apply logged_logged.
Qed.

Lemma ProfileDialog_init_logs title initial_data user (s : state P) :
  exists evs,
    final (ProfileDialog_init title initial_data user s) = logged s evs.
Proof.
  unfold ProfileDialog_init, bind, log, modify.
  match goal with
  | |- context [wait_window ?d user ?s1] =>
      destruct (wait_window_logs user d s1) as [evs Hevs]
  end.
  eexists. rewrite Hevs. apply (logged_logged s [_] evs).
Qed.

(** C4: when OK is clicked (or Return pressed) on a dialog whose name field
    is blank after trimming, an error box is shown and nothing else happens:
    the dialog object is as before, neither destroyed nor given a result, the
    world has seen no process, and the dialog goes on waiting for the next
    gesture. *)
Theorem blank_name_keeps_dialog_open (d : ProfileDialog) (s : state P) :
  strip (name_var d) = [] ->
  ok_clicked d s =
  Ret d (logged s [Showerror (lit "Error") (lit "Profile name is required!")])
  /\ (dialog_exists d = true ->
      forall rest,
        wait_window d (Click_OK :: rest) s =
        wait_window d rest
          (logged s [Showerror (lit "Error")
                       (lit "Profile name is required!")])
        /\ wait_window d (Press_Return :: rest) s =
           wait_window d rest
             (logged s [Showerror (lit "Error")
                          (lit "Profile name is required!")])).
Proof.
  intros Hblank.
  assert (Hok : ok_clicked d s =
                Ret d (logged s [Showerror (lit "Error")
                                   (lit "Profile name is required!")])).
  { unfold ok_clicked. now rewrite Hblank. }
  split; [exact Hok|].
  intros Hopen rest. cbn [wait_window]. rewrite Hopen.
  unfold bind. cbn [dispatch]. now rewrite Hok.
Qed.

(** ** Selection *)

Lemma get_selected_profile_row (s : state P) (i : nat) (rest : list nat)
  (it : item) :
  selection s = i :: rest ->
  nth_error (tree s) i = Some it ->
  get_selected_profile s = Ret (Some (profile_of_item P it)) s.
Proof.
  intros Hsel Hrow. unfold get_selected_profile, bind, gets.
  rewrite Hsel. cbn [ret]. now rewrite Hrow.
Qed.

(** C7: the proxy field of the edit dialog starts empty whatever the
    selected profile; two selected profiles that differ only in their stored
    proxy give the same initial dialog; and the first thing [edit_profile]
    does for a selected row is to show that dialog, proxy field empty. *)
Theorem edit_dialog_never_prefills_proxy :
  (forall p : profile,
      proxy_var (setup_dialog (lit "Edit Profile")
                   (Some (edit_initial_data p))) = [])
  /\ (forall p q : profile,
        profile_id p = profile_id q ->
        profile_name p = profile_name q ->
        profile_storage_path p = profile_storage_path q ->
        setup_dialog (lit "Edit Profile") (Some (edit_initial_data p))
        = setup_dialog (lit "Edit Profile") (Some (edit_initial_data q)))
  /\ (forall (s : state P) i rest it user,
        selection s = i :: rest ->
        nth_error (tree s) i = Some it ->
        let d := setup_dialog (lit "Edit Profile")
                   (Some (edit_initial_data (profile_of_item P it))) in
        exists evs,
          trace (final (edit_profile user s)) =
          trace s ++
            Dialog_shown (lit "Edit Profile") (name_var d) (storage_var d) []
            :: evs).
Proof.
  split; [|split].
  - intros p. reflexivity.
  - intros p q _ Hname Hpath. unfold setup_dialog, edit_initial_data.
    now rewrite Hname, Hpath.
  - intros s i rest it user Hsel Hrow d.
    unfold edit_profile, bind at 1.
    rewrite (get_selected_profile_row _ _ _ _ Hsel Hrow).
    destruct (bind_trace_after _ _
                (ProfileDialog_init (lit "Edit Profile")
                   (Some (edit_initial_data (profile_of_item P it))) user)
                (fun dialog =>
                   match result dialog with
                   | Some r =>
                       bind (run_command
                               (edit_cmd P (profile_of_item P it) r) false)
                         (fun output =>
                            if output_truthy output
                            then bind (showinfo (lit "Success")
                                         (lit "Profile '"
                                            ++ tk_str (profile_name
                                                 (profile_of_item P it))
                                            ++ lit "' updated successfully!"))
                                      (fun _ => @refresh_profiles P)
                            else ret tt)
                   | None => ret tt
                   end)
                s
                (trace s ++
                   [Dialog_shown (lit "Edit Profile") (name_var d)
                      (storage_var d) []])) as [evs Hevs].
    + unfold ProfileDialog_init, bind at 1, log, modify. fold d.
      match goal with
      | |- context [wait_window d user ?s1] =>
          destruct (grows_wait_window user d s1) as [evs Hevs]
      end.
      exists evs. exact Hevs.
    + intros dialog. destruct (result dialog); [|apply grows_ret].
      apply grows_bind; [apply grows_run_command|intros output].
      apply grows_if; [|apply grows_ret].
      apply grows_bind; [apply grows_log|intros _].
      apply grows_refresh_profiles.
    + exists evs. rewrite Hevs. now rewrite <- app_assoc.
Qed.

(** ** Create, edit, delete *)

Lemma run_command_nonzero (cmd : list tk_val) (args : list str)
  (s : state P) (done : CompletedProcess) (w : World P) :
  str_items 0 cmd = inr args ->
  subprocess_run P args (world s) = Some (inr done, w) ->
  returncode done <> 0%Z ->
  run_command cmd false s =
  Ret None
    {| tree := tree s; selection := selection s; status_var := lit "Ready";
       world := w;
       trace := trace s ++ [Subprocess_run args; command_failed done] |}.
Proof.
  intros Hargs Hrun Hcode. rewrite (run_command_args _ _ _ _ Hargs), Hrun.
  apply Z.eqb_neq in Hcode. now rewrite Hcode.
Qed.

Lemma ProfileDialog_init_keeps_table title initial_data user
  (s s1 : state P) (d : ProfileDialog) :
  ProfileDialog_init title initial_data user s = Ret d s1 ->
  tree s1 = tree s /\ selection s1 = selection s.
Proof.
  intros Hd.
  destruct (ProfileDialog_init_logs title initial_data user s) as [evs Hevs].
  rewrite Hd in Hevs. cbn [final] in Hevs. now subst s1.
Qed.

(** C2: when the external tool exits nonzero in a create, an edit or a
    delete, the operation ends after the error box: the only process that
    was invoked is the tool itself, so no refresh took place, and the table
    and the selection are those from before the operation. *)
Theorem failed_operation_leaves_table_untouched (s : state P) :
  (forall user d s1 r args done w,
      ProfileDialog_init (lit "Create New Profile") None user s = Ret d s1 ->
      result d = Some r ->
      str_items 0 (create_cmd P r) = inr args ->
      subprocess_run P args (world s1) = Some (inr done, w) ->
      returncode done <> 0%Z ->
      create_profile user s =
      Ret tt
        {| tree := tree s; selection := selection s;
           status_var := lit "Ready"; world := w;
           trace := trace s1 ++ [Subprocess_run args; command_failed done] |})
  /\ (forall i rest it user d s1 r args done w,
        selection s = i :: rest ->
        nth_error (tree s) i = Some it ->
        ProfileDialog_init (lit "Edit Profile")
          (Some (edit_initial_data (profile_of_item P it))) user s
        = Ret d s1 ->
        result d = Some r ->
        str_items 0 (edit_cmd P (profile_of_item P it) r) = inr args ->
        subprocess_run P args (world s1) = Some (inr done, w) ->
        returncode done <> 0%Z ->
        edit_profile user s =
        Ret tt
          {| tree := tree s; selection := selection s;
             status_var := lit "Ready"; world := w;
             trace := trace s1
                        ++ [Subprocess_run args; command_failed done] |})
  /\ (forall i rest it yes args done w,
        selection s = i :: rest ->
        nth_error (tree s) i = Some it ->
        str_items 0 (delete_cmd P (profile_of_item P it) yes) = inr args ->
        subprocess_run P args (world s) = Some (inr done, w) ->
        returncode done <> 0%Z ->
        delete_profile (Some yes) s =
        Ret tt
          {| tree := tree s; selection := selection s;
             status_var := lit "Ready"; world := w;
             trace := trace s ++
                [Askyesnocancel (lit "Confirm Deletion")
                   (delete_question (profile_of_item P it)) (Some yes);
                 Subprocess_run args; command_failed done] |}).
Proof.
  split; [|split].
  - intros user d s1 r args done w Hd Hres Hargs Hrun Hcode.
    destruct (ProfileDialog_init_keeps_table _ _ _ _ _ _ Hd) as [Htree Hsel].
    unfold create_profile, bind at 1. rewrite Hd, Hres.
    unfold bind. rewrite (run_command_nonzero _ _ _ _ _ Hargs Hrun Hcode).
    cbn [output_truthy ret]. now rewrite Htree, Hsel.
  - intros i rest it user d s1 r args done w Hsel Hrow Hd Hres Hargs Hrun
      Hcode.
    destruct (ProfileDialog_init_keeps_table _ _ _ _ _ _ Hd) as [Htree Hsel'].
    unfold edit_profile, bind at 1.
    rewrite (get_selected_profile_row _ _ _ _ Hsel Hrow).
    unfold bind at 1. rewrite Hd, Hres.
    unfold bind. rewrite (run_command_nonzero _ _ _ _ _ Hargs Hrun Hcode).
    cbn [output_truthy ret]. now rewrite Htree, Hsel'.
  - intros i rest it yes args done w Hsel Hrow Hargs Hrun Hcode.
    unfold delete_profile, bind at 1.
    rewrite (get_selected_profile_row _ _ _ _ Hsel Hrow).
    unfold bind at 1, askyesnocancel, bind at 1, log, modify. cbn [ret].
    unfold bind.
    erewrite (run_command_nonzero _ _ _ _ _ Hargs); [|exact Hrun|exact Hcode].
    cbn [output_truthy ret tree selection status_var world trace].
    now rewrite <- app_assoc.
Qed.

(** C5: for a selected profile, the first thing [delete_profile] does is
    to ask the three-way question.  On Cancel it returns at once: the
    question is the only new event and the world is as before.  On Yes the
    argument vector ends in [--remove-storage], on No it stops after the id;
    and that vector is what is invoked right after the question. *)
Theorem delete_asks_before_invoking (s : state P) (i : nat)
  (rest : list nat) (it : item) :
  selection s = i :: rest ->
  nth_error (tree s) i = Some it ->
  let p := profile_of_item P it in
  (forall user,
      exists evs,
        trace (final (delete_profile user s)) =
        trace s ++
          Askyesnocancel (lit "Confirm Deletion") (delete_question p) user
          :: evs)
  /\ delete_profile None s =
     Ret tt (logged s [Askyesnocancel (lit "Confirm Deletion")
                         (delete_question p) None])
  /\ delete_cmd P p true =
     [TkStr (python_path P); TkStr (script_path P); TkStr (lit "delete");
      profile_id p; TkStr (lit "--remove-storage")]
  /\ delete_cmd P p false =
     [TkStr (python_path P); TkStr (script_path P); TkStr (lit "delete");
      profile_id p]
  /\ (forall yes id,
        profile_id p = TkStr id ->
        exists evs,
          trace (final (delete_profile (Some yes) s)) =
          trace s ++
            Askyesnocancel (lit "Confirm Deletion") (delete_question p)
              (Some yes)
            :: Subprocess_run
                 ([python_path P; script_path P; lit "delete"; id]
                    ++ (if yes then [lit "--remove-storage"] else []))
            :: evs).
Proof.
  intros Hsel Hrow p.
  assert (Hstart : forall user,
             delete_profile user s =
             match user with
             | None => ret tt
             | Some yes =>
                 bind (run_command (delete_cmd P p yes) false)
                   (fun output =>
                      if output_truthy output then
                        bind (showinfo (lit "Success")
                                (lit "Profile '" ++ tk_str (profile_name p)
                                   ++ lit "' deleted "
                                   ++ (if yes
                                       then lit "and storage directory"
                                       else lit "but kept storage directory")
                                   ++ lit "!"))
                             (fun _ => @refresh_profiles P)
                      else ret tt)
             end
               (logged s [Askyesnocancel (lit "Confirm Deletion")
                            (delete_question p) user])).
  { intros user. unfold delete_profile, bind at 1.
    rewrite (get_selected_profile_row _ _ _ _ Hsel Hrow).
    unfold bind at 1, askyesnocancel, bind at 1, log, modify. cbn [ret].
    now destruct user. }
  assert (Hrest : forall (yes : bool) output,
             grows (if output_truthy output then
                      bind (showinfo (lit "Success")
                              (lit "Profile '" ++ tk_str (profile_name p)
                                 ++ lit "' deleted "
                                 ++ (if yes
                                     then lit "and storage directory"
                                     else lit "but kept storage directory")
                                 ++ lit "!"))
                           (fun _ => @refresh_profiles P)
                    else @ret P unit tt)).
  { intros yes output. apply grows_if; [|apply grows_ret].
    apply grows_bind; [apply grows_log|intros _].
    apply grows_refresh_profiles. }
  split; [|split; [|split; [|split]]].
  - intros user. rewrite Hstart. destruct user as [yes|].
    + destruct (grows_bind _ _ _ _
                  (grows_run_command (delete_cmd P p yes) false) (Hrest yes)
                  (logged s [Askyesnocancel (lit "Confirm Deletion")
                               (delete_question p) (Some yes)]))
        as [evs Hevs].
      exists evs. rewrite Hevs. cbn [logged trace]. now rewrite <- app_assoc.
    + now exists [].
  - now rewrite Hstart.
  - reflexivity.
  - reflexivity.
  - intros yes id Hid. rewrite Hstart.
    set (args := [python_path P; script_path P; lit "delete"; id]
                   ++ (if yes then [lit "--remove-storage"] else [])).
    assert (Hargs : str_items 0 (delete_cmd P p yes) = inr args).
    { unfold delete_cmd. rewrite Hid. subst args. now destruct yes. }
    match goal with
    | |- exists _, trace (final (bind ?c ?k ?s0)) = _ =>
        destruct (bind_trace_after _ _ c k s0
                    (trace s ++
                       [Askyesnocancel (lit "Confirm Deletion")
                          (delete_question p) (Some yes);
                        Subprocess_run args])) as [evs Hevs];
          [|exact (Hrest yes)|]
    end.
    + rewrite (run_command_args _ _ _ _ Hargs). cbn [logged world trace].
      destruct (subprocess_run P args (world s)) as [[[e|done] w]|];
        [|destruct (returncode done =? 0)%Z|]; cbn [final trace];
        eexists; rewrite <- !app_assoc; cbn [app]; reflexivity.
    + exists evs. rewrite Hevs. now rewrite <- app_assoc.
Qed.

(** ** Open *)

(** C3, as the code has it: for a selected profile, [open_profile] starts
    one daemon thread for the [open] command, shows the acknowledgement and
    returns; it runs no process itself and leaves the table, the selection
    and the world as they were.  The worker never touches the table either,
    but it does report to the user: the output of a successful run, when it
    is not blank, in an information box, and a failed run, or a process
    that could not be spawned, in an error box. *)
Theorem open_profile_starts_worker_and_returns (s : state P) (i : nat)
  (rest : list nat) (it : item) :
  selection s = i :: rest ->
  nth_error (tree s) i = Some it ->
  let p := profile_of_item P it in
  open_profile s =
  Ret tt
    (logged s
       [Thread_start true (open_cmd P p);
        Showinfo (lit "Opening Profile")
          (lit "Opening profile '" ++ tk_str (profile_name p)
             ++ lit "' for manual login...")])
  /\ (forall s' : state P,
        tree (final (run_open p s')) = tree s'
        /\ selection (final (run_open p s')) = selection s')
  /\ (forall (s' : state P) args done w,
        str_items 0 (open_cmd P p) = inr args ->
        subprocess_run P args (world s') = Some (inr done, w) ->
        (returncode done = 0%Z ->
         run_open p s' =
         Ret (Some (stdout done))
           {| tree := tree s'; selection := selection s';
              status_var := lit "Ready"; world := w;
              trace := trace s' ++
                 Subprocess_run args ::
                 (if nonempty (strip (stdout done))
                  then [Showinfo (lit "Command Output") (stdout done)]
                  else []) |})
        /\ (returncode done <> 0%Z ->
            run_open p s' =
            Ret None
              {| tree := tree s'; selection := selection s';
                 status_var := lit "Ready"; world := w;
                 trace := trace s' ++
                    [Subprocess_run args; command_failed done] |}))
  /\ (forall (s' : state P) args e w,
        str_items 0 (open_cmd P p) = inr args ->
        subprocess_run P args (world s') = Some (inl e, w) ->
        run_open p s' =
        Ret None
          {| tree := tree s'; selection := selection s';
             status_var := lit "Ready"; world := w;
             trace := trace s' ++
                [Subprocess_run args;
                 Showerror (lit "Error")
                   (lit "Failed to run command: " ++ exn_str e)] |}).
Proof.
  intros Hsel Hrow p. split; [|split; [|split]].
  - unfold open_profile, bind at 1.
    rewrite (get_selected_profile_row _ _ _ _ Hsel Hrow).
    unfold bind, showinfo, log, modify, logged.
    cbn [tree selection status_var world trace].
    now rewrite <- app_assoc.
  - intros s'. apply run_command_keeps_table.
  - intros s' args done w Hargs Hrun. unfold run_open.
    rewrite (run_command_args _ _ _ _ Hargs), Hrun. split.
    + intros Hcode. now rewrite Hcode.
    + intros Hcode. apply Z.eqb_neq in Hcode. now rewrite Hcode.
  - intros s' args e w Hargs Hrun. unfold run_open.
    now rewrite (run_command_args _ _ _ _ Hargs), Hrun.
Qed.

End Spec.

(** * The properties at work on the fixture platform *)

(** A tool that exits with status 2 and a message on stderr, a missing
    interpreter, and a tool that prints to stdout. *)
Lemma run_command_surfaces_failure_example :
  run_command (list_cmd Fixture.platform) false
    (Fixture.window [] false [Fixture.exited 2 "partial" " locked "])
  = Ret None
      (@Build_state Fixture.platform [] [] (lit "Ready") []
         [Subprocess_run (list_args Fixture.platform);
          Showerror (lit "Error") (lit "Command failed:" ++ nl ++ lit "locked")])
  /\ run_command (list_cmd Fixture.platform) false
       (Fixture.window [] false [])
     = Ret None
         (@Build_state Fixture.platform [] [] (lit "Ready") []
            [Subprocess_run (list_args Fixture.platform);
             Showerror (lit "Error")
               (lit "Failed to run command: "
                  ++ exn_str Fixture.spawn_failure)])
  /\ run_command (list_cmd Fixture.platform) true
       (Fixture.window [] false [Fixture.exited 0 "done" "warning"])
     = Ret (Some (lit "done"))
         (@Build_state Fixture.platform [] [] (lit "Ready") []
            [Subprocess_run (list_args Fixture.platform);
             Showinfo (lit "Command Output") (lit "done")]).
Proof.
  split; [|split].
  - apply (proj1 (run_command_surfaces_failure Fixture.platform
                    (list_cmd Fixture.platform) (list_args Fixture.platform)
                    false
                    (Fixture.window [] false
                       [Fixture.exited 2 "partial" " locked "])
                    eq_refl)
             {| returncode := 2; stdout := lit "partial";
                stderr := lit " locked " |} []).
    + reflexivity.
    + discriminate.
  - apply (proj1 (proj2 (run_command_surfaces_failure Fixture.platform
                    (list_cmd Fixture.platform) (list_args Fixture.platform)
                    false (Fixture.window [] false []) eq_refl))
             Fixture.spawn_failure []).
    reflexivity.
  - apply (proj2 (proj2 (run_command_surfaces_failure Fixture.platform
                    (list_cmd Fixture.platform) (list_args Fixture.platform)
                    true
                    (Fixture.window [] false
                       [Fixture.exited 0 "done" "warning"])
                    eq_refl))
             {| returncode := 0; stdout := lit "done";
                stderr := lit "warning" |} []).
    + reflexivity.
    + reflexivity.
Defined.

(** A refresh over a table with one row, when the tool prints the empty
    array. *)
Lemma refresh_empty_array_example :
  refresh_profiles
    (Fixture.window [Fixture.row "p1" "A" "default" "no"] true
       [Fixture.exited 0 "[]" ""])
  = Ret tt
      (@Build_state Fixture.platform [] [] (lit "Loaded 0 profiles") []
         [Subprocess_run (list_args Fixture.platform)]).
Proof.
  apply (refresh_empty_array Fixture.platform
           (Fixture.window [Fixture.row "p1" "A" "default" "no"] true
              [Fixture.exited 0 "[]" ""])
           {| returncode := 0; stdout := lit "[]"; stderr := [] |} []).
  - reflexivity.
  - reflexivity.
  - vm_compute. reflexivity.
Defined.

(** A refresh when the second object of the output has only an [id]: the
    row of the first object is in the table when the [KeyError] for [name]
    ends the refresh. *)
Lemma refresh_missing_key_example :
  refresh_profiles
    (Fixture.window [] false
       [inr {| returncode := 0; stdout := Fixture.broken_profiles_json;
               stderr := [] |}])
  = Raise (Exn KeyError (lit "'name'"))
      (@Build_state Fixture.platform [Fixture.p1_row] [] (lit "Ready") []
         [Subprocess_run (list_args Fixture.platform)]).
Proof.
  apply (refresh_missing_key_keeps_partial_rows Fixture.platform
           (Fixture.window [] false
              [inr {| returncode := 0; stdout := Fixture.broken_profiles_json;
                      stderr := [] |}])
           {| returncode := 0; stdout := Fixture.broken_profiles_json;
              stderr := [] |} []
           [PDict [(lit "id", PStr (lit "p1")); (lit "name", PStr (lit "A"));
                   (lit "storage_path", PStr (lit "default"))]]
           [] [Fixture.p1_row]
           [(lit "id", PStr (lit "p2"))] (lit "name")).
  - reflexivity.
  - reflexivity.
  - vm_compute. reflexivity.
  - constructor; [|constructor].
    eexists. split; [reflexivity|]. repeat split; try reflexivity.
    intros [v [Hget _]]. discriminate Hget.
  - reflexivity.
Defined.

(** The single profile with a proxy host, through [Json.loads]. *)
Lemma proxy_column_example :
  (exists s',
      refresh_profiles
        (Fixture.window [] false
           [inr {| returncode := 0; stdout := Fixture.one_profile_json;
                   stderr := [] |}])
      = Ret tt s'
      /\ Forall2
           (fun o it =>
              exists d,
                o = PDict d
                /\ (col_Proxy it = PStr (lit "yes") <-> proxy_host_truthy d)
                /\ (col_Proxy it = PStr (lit "no") <-> ~ proxy_host_truthy d))
           [PDict [(lit "id", PStr (lit "p1")); (lit "name", PStr (lit "A"));
                   (lit "storage_path", PStr (lit "default"));
                   (lit "proxy_host", PStr (lit "1.2.3.4"))]]
           (tree s'))
  /\ (exists s',
        refresh_profiles
          (Fixture.window [] false
             [inr {| returncode := 0; stdout := Fixture.one_profile_json;
                     stderr := [] |}])
        = Ret tt s'
        /\ tree s' = [Fixture.row "p1" "A" "default" "yes"]).
Proof.
  split.
  - apply (proj1 (proxy_column_reflects_proxy_host Fixture.platform
                    (Fixture.window [] false
                       [inr {| returncode := 0;
                               stdout := Fixture.one_profile_json;
                               stderr := [] |}]))
             {| returncode := 0; stdout := Fixture.one_profile_json;
                stderr := [] |} []).
    + reflexivity.
    + reflexivity.
    + vm_compute. reflexivity.
    + intros o [<-|[]]. eexists. split; reflexivity.
  - apply (proj2 (proxy_column_reflects_proxy_host Fixture.platform
                    (Fixture.window [] false
                       [inr {| returncode := 0;
                               stdout := Fixture.one_profile_json;
                               stderr := [] |}]))
             [] []).
    + reflexivity.
    + reflexivity.
Defined.

(** The three ways a listing fails, over a table that shows [p1]. *)
Lemma refresh_failure_example :
  refresh_profiles
    (Fixture.window [Fixture.p1_row] false
       [Fixture.exited 1 "" "store is locked"])
  = Ret tt
      (@Build_state Fixture.platform [] [] (lit "Ready") []
         [Subprocess_run (list_args Fixture.platform);
          Showerror (lit "Error")
            (lit "Command failed:" ++ nl ++ lit "store is locked")])
  /\ refresh_profiles (Fixture.window [Fixture.p1_row] false [])
     = Ret tt
         (@Build_state Fixture.platform [] [] (lit "Ready") []
            [Subprocess_run (list_args Fixture.platform);
             Showerror (lit "Error")
               (lit "Failed to run command: "
                  ++ exn_str Fixture.spawn_failure)])
  /\ refresh_profiles
       (Fixture.window [Fixture.p1_row] false [Fixture.exited 0 "[1," ""])
     = Ret tt
         (@Build_state Fixture.platform [] []
            (lit "Error loading profiles") []
            [Subprocess_run (list_args Fixture.platform);
             Showerror (lit "Error")
               (lit "Failed to parse profiles: "
                  ++ lit "Expecting value: line 1 column 4 (char 3)")]).
Proof.
  split; [|split].
  - apply (proj1 (refresh_failure_leaves_table_empty Fixture.platform
                    (Fixture.window [Fixture.p1_row] false
                       [Fixture.exited 1 "" "store is locked"]))
             {| returncode := 1; stdout := [];
                stderr := lit "store is locked" |} []).
    + reflexivity.
    + discriminate.
  - apply (proj1 (proj2 (refresh_failure_leaves_table_empty Fixture.platform
                           (Fixture.window [Fixture.p1_row] false [])))
             Fixture.spawn_failure []).
    reflexivity.
  - apply (proj2 (proj2 (refresh_failure_leaves_table_empty Fixture.platform
                           (Fixture.window [Fixture.p1_row] false
                              [Fixture.exited 0 "[1," ""])))
             {| returncode := 0; stdout := lit "[1,"; stderr := [] |} []
             (Exn JSONDecodeError
                (lit "Expecting value: line 1 column 4 (char 3)"))).
    + reflexivity.
    + reflexivity.
    + reflexivity.
    + vm_compute. reflexivity.
    + reflexivity.
Defined.

(** C1 as stated fails: a table that shows [p1] is empty after a refresh
    whose [list] invocation exits with status 1, and also after one whose
    invocation exits with status 0 and prints nothing, a text [json.loads]
    rejects, for which no error is shown at all. *)
Lemma refresh_failure_clears_table :
  let before := Fixture.window [Fixture.p1_row] false
                  [Fixture.exited 1 "" "store is locked"] in
  let silent := Fixture.window [Fixture.p1_row] false
                  [Fixture.exited 0 "" ""] in
  tree before = [Fixture.p1_row]
  /\ tree (final (refresh_profiles before)) = []
  /\ tree (final (refresh_profiles before)) <> tree before
  /\ (exists e, Json.loads [] = inl e /\ is_JSONDecodeError e = true)
  /\ refresh_profiles silent
     = Ret tt
         (@Build_state Fixture.platform [] [] (lit "Ready") []
            [Subprocess_run (list_args Fixture.platform)]).
Proof.
  cbv zeta. repeat split.
  - discriminate.
  - eexists. split; reflexivity.
Qed.

(** Create, edit and delete against a tool that exits with status 1. *)
Lemma failed_operation_example :
  (exists s',
      create_profile [Type_name (lit "B"); Click_OK] Fixture.refused
      = Ret tt s'
      /\ tree s' = tree Fixture.refused
      /\ trace s' =
         [Dialog_shown (lit "Create New Profile") [] [] [];
          Subprocess_run
            [python_path Fixture.platform; script_path Fixture.platform;
             lit "create"; lit "B"];
          Showerror (lit "Error") (lit "Command failed:" ++ nl ++ lit "refused")])
  /\ (exists s',
        edit_profile [Type_proxy (lit "h:1:u:p"); Press_Return] Fixture.refused
        = Ret tt s'
        /\ tree s' = tree Fixture.refused
        /\ trace s' =
           [Dialog_shown (lit "Edit Profile") (lit "A") [] [];
            Subprocess_run
              [python_path Fixture.platform; script_path Fixture.platform;
               lit "edit"; lit "p1"; lit "--name"; lit "A";
               lit "--proxy"; lit "h:1:u:p"];
            Showerror (lit "Error")
              (lit "Command failed:" ++ nl ++ lit "refused")])
  /\ (exists s',
        delete_profile (Some true) Fixture.refused = Ret tt s'
        /\ tree s' = tree Fixture.refused
        /\ trace s' =
           [Askyesnocancel (lit "Confirm Deletion")
              (delete_question
                 (profile_of_item Fixture.platform Fixture.p1_row))
              (Some true);
            Subprocess_run
              [python_path Fixture.platform; script_path Fixture.platform;
               lit "delete"; lit "p1"; lit "--remove-storage"];
            Showerror (lit "Error")
              (lit "Command failed:" ++ nl ++ lit "refused")]).
Proof.
  split; [|split].
  - eexists. split.
    + eapply (proj1 (failed_operation_leaves_table_untouched
                       Fixture.platform Fixture.refused)).
      * reflexivity.
      * reflexivity.
      * reflexivity.
      * reflexivity.
      * discriminate.
    + split; reflexivity.
  - eexists. split.
    + eapply (proj1 (proj2 (failed_operation_leaves_table_untouched
                              Fixture.platform Fixture.refused))).
      * reflexivity.
      * reflexivity.
      * reflexivity.
      * reflexivity.
      * reflexivity.
      * reflexivity.
      * discriminate.
    + split; reflexivity.
  - eexists. split.
    + eapply (proj2 (proj2 (failed_operation_leaves_table_untouched
                              Fixture.platform Fixture.refused))).
      * reflexivity.
      * reflexivity.
      * reflexivity.
      * reflexivity.
      * discriminate.
    + split; reflexivity.
Defined.

(** OK and Return on a name of three spaces. *)
Lemma blank_name_example :
  ok_clicked Fixture.blank_dialog (Fixture.window [] false [])
  = Ret Fixture.blank_dialog
      (logged (Fixture.window [] false [])
         [Showerror (lit "Error") (lit "Profile name is required!")])
  /\ wait_window Fixture.blank_dialog [Click_OK; Press_Return; Click_Cancel]
       (Fixture.window [] false [])
     = wait_window Fixture.blank_dialog [Press_Return; Click_Cancel]
         (logged (Fixture.window [] false [])
            [Showerror (lit "Error") (lit "Profile name is required!")]).
Proof.
  split.
  - exact (proj1 (blank_name_keeps_dialog_open Fixture.platform
                    Fixture.blank_dialog (Fixture.window [] false [])
                    eq_refl)).
  - exact (proj1 (proj2 (blank_name_keeps_dialog_open Fixture.platform
                           Fixture.blank_dialog (Fixture.window [] false [])
                           eq_refl)
                    eq_refl [Press_Return; Click_Cancel])).
Defined.

(** The edit dialog for [p1], shown with or without a stored proxy. *)
Lemma edit_dialog_example :
  setup_dialog (lit "Edit Profile")
    (Some (edit_initial_data
             (profile_of_item Fixture.platform
                (Fixture.row "p1" "A" "default" "yes"))))
  = setup_dialog (lit "Edit Profile")
      (Some (edit_initial_data
               (profile_of_item Fixture.platform
                  (Fixture.row "p1" "A" "default" "no"))))
  /\ (exists evs,
        trace (final (edit_profile [Click_Cancel] Fixture.refused))
        = trace Fixture.refused
            ++ Dialog_shown (lit "Edit Profile") (lit "A") [] [] :: evs).
Proof.
  split.
  - exact (proj1 (proj2 (edit_dialog_never_prefills_proxy Fixture.platform))
             (profile_of_item Fixture.platform
                (Fixture.row "p1" "A" "default" "yes"))
             (profile_of_item Fixture.platform
                (Fixture.row "p1" "A" "default" "no"))
             eq_refl eq_refl eq_refl).
  - exact (proj2 (proj2 (edit_dialog_never_prefills_proxy Fixture.platform))
             Fixture.refused 0 [] Fixture.p1_row [Click_Cancel]
             eq_refl eq_refl).
Defined.

(** Cancel, and Yes, on the deletion of [p1]. *)
Lemma delete_example :
  delete_profile None Fixture.refused
  = Ret tt
      (logged Fixture.refused
         [Askyesnocancel (lit "Confirm Deletion")
            (delete_question
               (profile_of_item Fixture.platform Fixture.p1_row)) None])
  /\ (exists evs,
        trace (final (delete_profile (Some true) Fixture.refused))
        = trace Fixture.refused
            ++ Askyesnocancel (lit "Confirm Deletion")
                 (delete_question
                    (profile_of_item Fixture.platform Fixture.p1_row))
                 (Some true)
            :: Subprocess_run
                 ([python_path Fixture.platform; script_path Fixture.platform;
                   lit "delete"; lit "p1"] ++ [lit "--remove-storage"])
            :: evs).
Proof.
  split.
  - exact (proj1 (proj2 (delete_asks_before_invoking Fixture.platform
                           Fixture.refused 0 [] Fixture.p1_row
                           eq_refl eq_refl))).
  - exact (proj2 (proj2 (proj2 (proj2
             (delete_asks_before_invoking Fixture.platform
                Fixture.refused 0 [] Fixture.p1_row eq_refl eq_refl))))
             true (lit "p1") eq_refl).
Defined.

(** Opening [p1]: the acknowledgement, a worker whose tool fails, and a
    worker whose interpreter is missing. *)
Lemma open_profile_example :
  open_profile Fixture.refused
  = Ret tt
      (logged Fixture.refused
         [Thread_start true
            (open_cmd Fixture.platform
               (profile_of_item Fixture.platform Fixture.p1_row));
          Showinfo (lit "Opening Profile")
            (lit "Opening profile 'A' for manual login...")])
  /\ run_open (profile_of_item Fixture.platform Fixture.p1_row)
       Fixture.refused
     = Ret None
         (@Build_state Fixture.platform [Fixture.p1_row] [0] (lit "Ready") []
            [Subprocess_run
               [python_path Fixture.platform; script_path Fixture.platform;
                lit "open"; lit "p1"];
             Showerror (lit "Error")
               (lit "Command failed:" ++ nl ++ lit "refused")])
  /\ run_open (profile_of_item Fixture.platform Fixture.p1_row)
       (Fixture.window [Fixture.p1_row] true [])
     = Ret None
         (@Build_state Fixture.platform [Fixture.p1_row] [0] (lit "Ready") []
            [Subprocess_run
               [python_path Fixture.platform; script_path Fixture.platform;
                lit "open"; lit "p1"];
             Showerror (lit "Error")
               (lit "Failed to run command: "
                  ++ exn_str Fixture.spawn_failure)]).
Proof.
  split; [|split].
  - exact (proj1 (open_profile_starts_worker_and_returns Fixture.platform
                    Fixture.refused 0 [] Fixture.p1_row eq_refl eq_refl)).
  - apply (proj2 (proj1 (proj2 (proj2
             (open_profile_starts_worker_and_returns Fixture.platform
                Fixture.refused 0 [] Fixture.p1_row eq_refl eq_refl)))
             Fixture.refused
             [python_path Fixture.platform; script_path Fixture.platform;
              lit "open"; lit "p1"]
             {| returncode := 1; stdout := []; stderr := lit "refused" |} []
             eq_refl eq_refl)).
    discriminate.
  - exact (proj2 (proj2 (proj2
             (open_profile_starts_worker_and_returns Fixture.platform
                Fixture.refused 0 [] Fixture.p1_row eq_refl eq_refl)))
             (Fixture.window [Fixture.p1_row] true [])
             [python_path Fixture.platform; script_path Fixture.platform;
              lit "open"; lit "p1"]
             Fixture.spawn_failure [] eq_refl eq_refl).
Defined.

(** C3 as stated fails: the worker that [open_profile] starts for [p1]
    shows the user what the tool printed. *)
Lemma open_worker_reports_to_user :
  let s := Fixture.window [Fixture.p1_row] true
             [Fixture.exited 0 "Profile p1 closed." ""] in
  exists s1,
    open_profile s = Ret tt s1
    /\ trace s1 =
       [Thread_start true
          [TkStr (python_path Fixture.platform);
           TkStr (script_path Fixture.platform);
           TkStr (lit "open"); TkStr (lit "p1")];
        Showinfo (lit "Opening Profile")
          (lit "Opening profile 'A' for manual login...")]
    /\ trace (final (run_open
                       (profile_of_item Fixture.platform Fixture.p1_row) s1))
       = trace s1
           ++ [Subprocess_run
                 [python_path Fixture.platform; script_path Fixture.platform;
                  lit "open"; lit "p1"];
               Showinfo (lit "Command Output") (lit "Profile p1 closed.")].
Proof.
  cbv zeta. eexists. split; [reflexivity|]. split; reflexivity.
Qed.

(** * Further properties of the code *)

Section Commands.
Variable P : platform.

(** ** What a finished command leads to *)

(** [run_command] followed by the [if self.run_command(cmd):] of the
    buttons, for a command line made of strings. *)
Lemma after_command (cmd : list tk_val) (args : list str) (k : M P unit)
  (s : state P) :
  str_items 0 cmd = inr args ->
  bind (run_command cmd false)
       (fun output => if output_truthy output then k else ret tt) s =
  match subprocess_run P args (world s) with
  | Some (inr done, w) =>
      if (returncode done =? 0)%Z then
        let s' := {| tree := tree s; selection := selection s;
                     status_var := lit "Ready"; world := w;
                     trace := trace s ++ [Subprocess_run args] |} in
        if nonempty (stdout done) then k s' else Ret tt s'
      else
        Ret tt
          {| tree := tree s; selection := selection s;
             status_var := lit "Ready"; world := w;
             trace := trace s ++ [Subprocess_run args; command_failed done] |}
  | Some (inl e, w) =>
      Ret tt
        {| tree := tree s; selection := selection s;
           status_var := lit "Ready"; world := w;
           trace := trace s ++
              [Subprocess_run args;
               Showerror (lit "Error")
                 (lit "Failed to run command: " ++ exn_str e)] |}
  | None =>
      Blocked
        {| tree := tree s; selection := selection s;
           status_var := lit "Running: " ++ join (lit " ") args;
           world := world s;
           trace := trace s ++ [Subprocess_run args] |}
  end.
Proof.
  intros Hargs. unfold bind. rewrite (run_command_args P _ _ _ _ Hargs).
  destruct (subprocess_run P args (world s)) as [[[e|done] w]|];
    [reflexivity| |reflexivity].
  destruct (returncode done =? 0)%Z; [|reflexivity].
  cbn [andb output_truthy]. now destruct (nonempty (stdout done)).
Qed.


(** X2: when the tool exits with status 0 and prints something, create,
    edit and delete show their success box and go on exactly as a refresh of
    the table does from there. *)
Theorem successful_operation_refreshes (s : state P) :
  (forall user d s1 r args done w,
      ProfileDialog_init (lit "Create New Profile") None user s = Ret d s1 ->
      result d = Some r ->
      str_items 0 (create_cmd P r) = inr args ->
      subprocess_run P args (world s1) = Some (inr done, w) ->
      returncode done = 0%Z ->
      nonempty (stdout done) = true ->
      create_profile user s =
      refresh_profiles
        {| tree := tree s; selection := selection s;
           status_var := lit "Ready"; world := w;
           trace := trace s1 ++
              [Subprocess_run args;
               Showinfo (lit "Success")
                 (lit "Profile '" ++ result_name r
                    ++ lit "' created successfully!")] |})
  /\ (forall i rest it user d s1 r args done w,
        selection s = i :: rest ->
        nth_error (tree s) i = Some it ->
        ProfileDialog_init (lit "Edit Profile")
          (Some (edit_initial_data (profile_of_item P it))) user s
        = Ret d s1 ->
        result d = Some r ->
        str_items 0 (edit_cmd P (profile_of_item P it) r) = inr args ->
        subprocess_run P args (world s1) = Some (inr done, w) ->
        returncode done = 0%Z ->
        nonempty (stdout done) = true ->
        edit_profile user s =
        refresh_profiles
          {| tree := tree s; selection := selection s;
             status_var := lit "Ready"; world := w;
             trace := trace s1 ++
                [Subprocess_run args;
                 Showinfo (lit "Success")
                   (lit "Profile '"
                      ++ tk_str (profile_name (profile_of_item P it))
                      ++ lit "' updated successfully!")] |})
  /\ (forall i rest it yes args done w,
        selection s = i :: rest ->
        nth_error (tree s) i = Some it ->
        str_items 0 (delete_cmd P (profile_of_item P it) yes) = inr args ->
        subprocess_run P args (world s) = Some (inr done, w) ->
        returncode done = 0%Z ->
        nonempty (stdout done) = true ->
        delete_profile (Some yes) s =
        refresh_profiles
          {| tree := tree s; selection := selection s;
             status_var := lit "Ready"; world := w;
             trace := trace s ++
                [Askyesnocancel (lit "Confirm Deletion")
                   (delete_question (profile_of_item P it)) (Some yes);
                 Subprocess_run args;
                 Showinfo (lit "Success")
                   (lit "Profile '"
                      ++ tk_str (profile_name (profile_of_item P it))
                      ++ lit "' deleted "
                      ++ (if yes then lit "and storage directory"
                          else lit "but kept storage directory")
                      ++ lit "!")] |}).
Proof.
  split; [|split].
  - intros user d s1 r args done w Hd Hres Hargs Hrun Hcode Hout.
    destruct (ProfileDialog_init_keeps_table P _ _ _ _ _ _ Hd) as [Htree Hsel].
    unfold create_profile, bind at 1. rewrite Hd, Hres.
    rewrite (after_command _ _ _ _ Hargs), Hrun, Hcode. cbn [Z.eqb].
    rewrite Hout. cbv zeta. unfold bind, showinfo, log, modify.
    cbn [tree selection status_var world trace].
    now rewrite Htree, Hsel, <- app_assoc.
  - intros i rest it user d s1 r args done w Hsel Hrow Hd Hres Hargs Hrun
      Hcode Hout.
    destruct (ProfileDialog_init_keeps_table P _ _ _ _ _ _ Hd) as [Htree Hsel'].
    unfold edit_profile, bind at 1.
    rewrite (get_selected_profile_row P _ _ _ _ Hsel Hrow).
    unfold bind at 1. rewrite Hd, Hres.
    rewrite (after_command _ _ _ _ Hargs), Hrun, Hcode. cbn [Z.eqb].
    rewrite Hout. cbv zeta. unfold bind, showinfo, log, modify.
    cbn [tree selection status_var world trace].
    now rewrite Htree, Hsel', <- app_assoc.
  - intros i rest it yes args done w Hsel Hrow Hargs Hrun Hcode Hout.
    unfold delete_profile, bind at 1.
    rewrite (get_selected_profile_row P _ _ _ _ Hsel Hrow).
    unfold bind at 1, askyesnocancel, bind at 1, log, modify. cbn [ret].
    rewrite (after_command _ _ _ _ Hargs).
    cbn [tree selection status_var world trace].
    rewrite Hrun, Hcode. cbn [Z.eqb].
    rewrite Hout. cbv zeta. unfold bind, showinfo, log, modify.
    cbn [tree selection status_var world trace].
    now rewrite <- !app_assoc.
Qed.

(** X3: when the tool exits with status 0 and prints nothing, the empty
    output counts as false in [if self.run_command(cmd):]: create, edit and
    delete return without a success box and without a refresh. *)
Theorem silent_success_skips_refresh (s : state P) :
  (forall user d s1 r args done w,
      ProfileDialog_init (lit "Create New Profile") None user s = Ret d s1 ->
      result d = Some r ->
      str_items 0 (create_cmd P r) = inr args ->
      subprocess_run P args (world s1) = Some (inr done, w) ->
      returncode done = 0%Z ->
      stdout done = [] ->
      create_profile user s =
      Ret tt
        {| tree := tree s; selection := selection s;
           status_var := lit "Ready"; world := w;
           trace := trace s1 ++ [Subprocess_run args] |})
  /\ (forall i rest it user d s1 r args done w,
        selection s = i :: rest ->
        nth_error (tree s) i = Some it ->
        ProfileDialog_init (lit "Edit Profile")
          (Some (edit_initial_data (profile_of_item P it))) user s
        = Ret d s1 ->
        result d = Some r ->
        str_items 0 (edit_cmd P (profile_of_item P it) r) = inr args ->
        subprocess_run P args (world s1) = Some (inr done, w) ->
        returncode done = 0%Z ->
        stdout done = [] ->
        edit_profile user s =
        Ret tt
          {| tree := tree s; selection := selection s;
             status_var := lit "Ready"; world := w;
             trace := trace s1 ++ [Subprocess_run args] |})
  /\ (forall i rest it yes args done w,
        selection s = i :: rest ->
        nth_error (tree s) i = Some it ->
        str_items 0 (delete_cmd P (profile_of_item P it) yes) = inr args ->
        subprocess_run P args (world s) = Some (inr done, w) ->
        returncode done = 0%Z ->
        stdout done = [] ->
        delete_profile (Some yes) s =
        Ret tt
          {| tree := tree s; selection := selection s;
             status_var := lit "Ready"; world := w;
             trace := trace s ++
                [Askyesnocancel (lit "Confirm Deletion")
                   (delete_question (profile_of_item P it)) (Some yes);
                 Subprocess_run args] |}).
Proof.
  split; [|split].
  - intros user d s1 r args done w Hd Hres Hargs Hrun Hcode Hout.
    destruct (ProfileDialog_init_keeps_table P _ _ _ _ _ _ Hd) as [Htree Hsel].
    unfold create_profile, bind at 1. rewrite Hd, Hres.
    rewrite (after_command _ _ _ _ Hargs), Hrun, Hcode. cbn [Z.eqb].
    rewrite Hout. cbn [nonempty]. cbv zeta.
    now rewrite Htree, Hsel.
  - intros i rest it user d s1 r args done w Hsel Hrow Hd Hres Hargs Hrun
      Hcode Hout.
    destruct (ProfileDialog_init_keeps_table P _ _ _ _ _ _ Hd) as [Htree Hsel'].
    unfold edit_profile, bind at 1.
    rewrite (get_selected_profile_row P _ _ _ _ Hsel Hrow).
    unfold bind at 1. rewrite Hd, Hres.
    rewrite (after_command _ _ _ _ Hargs), Hrun, Hcode. cbn [Z.eqb].
    rewrite Hout. cbn [nonempty]. cbv zeta.
    now rewrite Htree, Hsel'.
  - intros i rest it yes args done w Hsel Hrow Hargs Hrun Hcode Hout.
    unfold delete_profile, bind at 1.
    rewrite (get_selected_profile_row P _ _ _ _ Hsel Hrow).
    unfold bind at 1, askyesnocancel, bind at 1, log, modify. cbn [ret].
    rewrite (after_command _ _ _ _ Hargs).
    cbn [tree selection status_var world trace].
    rewrite Hrun, Hcode. cbn [Z.eqb].
    rewrite Hout. cbn [nonempty]. cbv zeta.
    now rewrite <- !app_assoc.
Qed.

(** X4: with no row selected, edit, delete and open show the "No
    Selection" warning and do nothing else: no dialog, no question, no
    thread, no process. *)
Theorem no_selection_only_warns (s : state P) :
  selection s = [] ->
  let warned :=
    logged s [Showwarning (lit "No Selection")
                (lit "Please select a profile first.")] in
  (forall user, edit_profile user s = Ret tt warned)
  /\ (forall user, delete_profile user s = Ret tt warned)
  /\ open_profile s = Ret tt warned.
Proof.
  intros Hsel warned.
  assert (Hnone : get_selected_profile s = Ret None warned).
  { unfold get_selected_profile, bind at 1, gets. now rewrite Hsel. }
  repeat split; intros;
    [unfold edit_profile | unfold delete_profile | unfold open_profile];
    unfold bind at 1; now rewrite Hnone.
Qed.

End Commands.

Section Buttons.
Variable P : platform.

Lemma int_item_raises (a b c : str) (z : Z) (more : list tk_val) :
  str_items 0 (TkStr a :: TkStr b :: TkStr c :: TkInt z :: more) =
  inl (Exn TypeError
         (lit "sequence item 3: expected str instance, int found")).
Proof. reflexivity. Qed.

(** X5: when the id cell of the selected row reads back as an [int],
    joining the command line for the status bar raises before any process is
    spawned: delete, edit and the open worker show the [TypeError] in an
    error box and leave the world as it was. *)
Theorem integer_id_never_reaches_tool (s : state P) (i : nat)
  (rest : list nat) (it : item) (z : Z) :
  selection s = i :: rest ->
  nth_error (tree s) i = Some it ->
  cell_readback P (col_ID it) = TkInt z ->
  let p := profile_of_item P it in
  (forall yes,
      delete_profile (Some yes) s =
      Ret tt
        {| tree := tree s; selection := selection s;
           status_var := lit "Ready"; world := world s;
           trace := trace s ++
              [Askyesnocancel (lit "Confirm Deletion") (delete_question p)
                 (Some yes);
               int_item_error] |})
  /\ (forall user d s1 r,
        ProfileDialog_init (lit "Edit Profile") (Some (edit_initial_data p))
          user s = Ret d s1 ->
        result d = Some r ->
        edit_profile user s =
        Ret tt
          {| tree := tree s; selection := selection s;
             status_var := lit "Ready"; world := world s;
             trace := trace s1 ++ [int_item_error] |})
  /\ (forall s' : state P,
        run_open p s' =
        Ret None
          {| tree := tree s'; selection := selection s';
             status_var := lit "Ready"; world := world s';
             trace := trace s' ++ [int_item_error] |}).
Proof.
  intros Hsel Hrow Hid p.
  assert (Hpid : profile_id p = TkInt z) by exact Hid.
  split; [|split].
  - intros yes. unfold delete_profile, bind at 1.
    rewrite (get_selected_profile_row P _ _ _ _ Hsel Hrow).
    unfold bind at 1, askyesnocancel, bind at 1, log, modify. cbn [ret].
    fold p.
    assert (Hcmd : str_items 0 (delete_cmd P p yes) =
                   inl (Exn TypeError
                          (lit "sequence item 3: expected str instance, int found")))
      by (unfold delete_cmd; rewrite Hpid; apply int_item_raises).
    unfold bind. rewrite (run_command_not_str P _ _ _ _ Hcmd).
    cbn [output_truthy ret tree selection status_var world trace].
    now rewrite <- app_assoc.
  - intros user d s1 r Hd Hres.
    destruct (ProfileDialog_init_logs P (lit "Edit Profile")
                (Some (edit_initial_data p)) user s) as [evs Hevs].
    rewrite Hd in Hevs. cbn [final] in Hevs.
    unfold edit_profile, bind at 1.
    rewrite (get_selected_profile_row P _ _ _ _ Hsel Hrow).
    unfold bind at 1. fold p. rewrite Hd, Hres.
    assert (Hcmd : str_items 0 (edit_cmd P p r) =
                   inl (Exn TypeError
                          (lit "sequence item 3: expected str instance, int found")))
      by (unfold edit_cmd; rewrite Hpid; apply int_item_raises).
    unfold bind. rewrite (run_command_not_str P _ _ _ _ Hcmd).
    cbn [output_truthy ret]. now subst s1.
  - intros s'. unfold run_open.
    assert (Hcmd : str_items 0 (open_cmd P p) =
                   inl (Exn TypeError
                          (lit "sequence item 3: expected str instance, int found")))
      by (unfold open_cmd; rewrite Hpid; apply int_item_raises).
    now rewrite (run_command_not_str P _ _ _ _ Hcmd).
Qed.

(** A dismissing gesture destroys the open dialog and ends the wait. *)
Lemma wait_window_dismissed (g : gesture) (rest : list gesture)
  (d : ProfileDialog) (s : state P) :
  dismisses g ->
  dialog_exists d = true ->
  wait_window d (g :: rest) s = Ret (destroy d) s.
Proof.
  intros Hg Hopen. cbn [wait_window]. rewrite Hopen. unfold bind.
  destruct Hg as [Hg|[Hg|Hg]]; subst g; cbn [dispatch cancel_clicked ret];
    now destruct rest.
Qed.

(** X6: a create or edit dialog that is dismissed at once (Cancel,
    Escape, or closing the window) leaves nothing behind but its own
    appearance: the button returns with no process invoked. *)
Theorem dismissed_dialog_does_nothing (s : state P) (g : gesture)
  (rest : list gesture) :
  dismisses g ->
  create_profile (g :: rest) s =
  Ret tt (logged s [Dialog_shown (lit "Create New Profile") [] [] []])
  /\ (forall i more it,
        selection s = i :: more ->
        nth_error (tree s) i = Some it ->
        let d := setup_dialog (lit "Edit Profile")
                   (Some (edit_initial_data (profile_of_item P it))) in
        edit_profile (g :: rest) s =
        Ret tt
          (logged s [Dialog_shown (lit "Edit Profile") (name_var d)
                       (storage_var d) []])).
Proof.
  intros Hg. split.
  - unfold create_profile, bind at 1, ProfileDialog_init, bind at 1, log,
      modify.
    match goal with
    | |- context [wait_window ?d0 (g :: rest) ?s0] =>
        now rewrite (wait_window_dismissed g rest d0 s0 Hg eq_refl)
    end.
  - intros i more it Hsel Hrow d.
    unfold edit_profile, bind at 1.
    rewrite (get_selected_profile_row P _ _ _ _ Hsel Hrow).
    unfold bind at 1, ProfileDialog_init, bind at 1, log, modify.
    match goal with
    | |- context [wait_window ?d0 (g :: rest) ?s0] =>
        now rewrite (wait_window_dismissed g rest d0 s0 Hg eq_refl)
    end.
Qed.

End Buttons.

(** ** [str.strip] *)

Lemma lstrip_head (s : str) (c : char) (t : str) :
  lstrip s = c :: t -> isspace c = false.
Proof.
  induction s as [|a s IH]; cbn [lstrip]; [discriminate|].
  destruct (isspace a) eqn:Ha; [exact IH|].
  intros [= <- _]. exact Ha.
Qed.

Lemma lstrip_fixed (s : str) :
  (forall c t, s = c :: t -> isspace c = false) -> lstrip s = s.
Proof.
  destruct s as [|a s]; [reflexivity|]. intros H. cbn [lstrip].
  now rewrite (H a s eq_refl).
Qed.

Lemma lstrip_idempotent (s : str) : lstrip (lstrip s) = lstrip s.
Proof.
  apply lstrip_fixed. intros c t H. exact (lstrip_head _ _ _ H).
Qed.

Lemma lstrip_suffix (s : str) : exists p, s = p ++ lstrip s.
Proof.
  induction s as [|a s [p Hp]]; [now exists []|]. cbn [lstrip].
  destruct (isspace a).
  - exists (a :: p). cbn. now rewrite <- Hp.
  - now exists [].
Qed.

Lemma strip_idempotent (s : str) : strip (strip s) = strip s.
Proof.
  unfold strip, rstrip.
  set (u := lstrip (rev s)).
  destruct (lstrip (rev u)) as [|c t] eqn:Ht; [reflexivity|].
  destruct (lstrip_suffix (rev u)) as [p Hp]. rewrite Ht in Hp.
  assert (Hu : u = rev (c :: t) ++ rev p).
  { rewrite <- rev_app_distr, <- Hp. now rewrite rev_involutive. }
  assert (Hfix : lstrip (rev (c :: t)) = rev (c :: t)).
  { apply lstrip_fixed. intros a r Hr.
    rewrite Hr in Hu. cbn [app] in Hu.
    exact (lstrip_head (rev s) a (r ++ rev p) Hu). }
  rewrite Hfix, rev_involutive, <- Ht. apply lstrip_idempotent.
Qed.

Section Dialog.
Variable P : platform.

Lemma dispatch_dialog_ok (g : gesture) (d d' : ProfileDialog)
  (s s' : state P) :
  dialog_ok d -> dialog_exists d = true ->
  dispatch g d s = Ret d' s' -> dialog_ok d'.
Proof.
  intros [Hopen Hres] Hex. specialize (Hopen Hex).
  destruct g; cbn [dispatch]; unfold ok_clicked, cancel_clicked;
    try (intros [= <- _]; split; cbn [dialog_exists result destroy];
         [try discriminate; auto | rewrite Hopen; discriminate]).
  all: destruct (nonempty (strip (name_var d))) eqn:Hname; cbn [negb];
    unfold bind, showerror, log, modify; intros [= <- _].
  all: try (split; [auto | rewrite Hopen; discriminate]).
  all: split; cbn [dialog_exists result destroy]; [discriminate|];
    intros r [= <-]; unfold trimmed_result;
    cbn [result_name result_storage_path result_proxy];
    repeat split; try apply strip_idempotent; exact Hname.
Qed.

Lemma wait_window_dialog_ok (user : list gesture) :
  forall (d d' : ProfileDialog) (s s' : state P),
    dialog_ok d ->
    wait_window d user s = Ret d' s' ->
    dialog_ok d' /\ dialog_exists d' = false.
Proof.
  induction user as [|g user IH]; intros d d' s s' Hok; cbn [wait_window];
    destruct (dialog_exists d) eqn:Hex;
    try (intros [= <- _]; now split); try discriminate.
  unfold bind. destruct (dispatch_logs P g d s) as [d1 [evs Hd1]].
  rewrite Hd1. apply IH. exact (dispatch_dialog_ok _ _ _ _ _ Hok Hex Hd1).
Qed.

(** The name a dialog returns is never empty. *)
Lemma returned_name_nonempty (title : str)
  (initial_data : option (list (str * tk_val))) (user : list gesture)
  (s s1 : state P) (d : ProfileDialog) (r : dialog_result) :
  ProfileDialog_init title initial_data user s = Ret d s1 ->
  result d = Some r ->
  nonempty (result_name r) = true.
Proof.
  intros Hd Hres. unfold ProfileDialog_init, bind, log, modify in Hd.
  apply wait_window_dialog_ok in Hd.
  - destruct Hd as [[_ Htrim] _]. exact (proj1 (Htrim r Hres)).
  - split; [reflexivity|discriminate].
Qed.

(** X7: whenever a [ProfileDialog] returns, it has been destroyed, the
    table and the world are as before, and a result, if there is one, has a
    non-empty name and no field with whitespace at either end. *)
Theorem dialog_result_is_trimmed (title : str)
  (initial_data : option (list (str * tk_val))) (user : list gesture)
  (s s1 : state P) (d : ProfileDialog) :
  ProfileDialog_init title initial_data user s = Ret d s1 ->
  dialog_exists d = false
  /\ tree s1 = tree s
  /\ world s1 = world s
  /\ forall r, result d = Some r -> trimmed_result r.
Proof.
  intros Hd.
  destruct (ProfileDialog_init_logs P title initial_data user s) as [evs Hevs].
  rewrite Hd in Hevs. cbn [final] in Hevs.
  unfold ProfileDialog_init, bind, log, modify in Hd.
  apply wait_window_dialog_ok in Hd.
  - destruct Hd as [[_ Hres] Hex]. subst s1.
    split; [exact Hex|]. split; [reflexivity|]. split; [reflexivity|exact Hres].
  - split; [reflexivity|discriminate].
Qed.

(** The wait returns at the first dismissing gesture, if not before. *)
Lemma wait_window_returns (user : list gesture) :
  forall (g : gesture) (rest : list gesture) (d : ProfileDialog)
         (s : state P),
    dismisses g ->
    exists d' s', wait_window d (user ++ g :: rest) s = Ret d' s'.
Proof.
  induction user as [|a user IH]; intros g rest d s Hg; cbn [app].
  - destruct (dialog_exists d) eqn:Hex.
    + rewrite (wait_window_dismissed P g rest d s Hg Hex). eauto.
    + cbn [wait_window]. rewrite Hex. eauto.
  - cbn [wait_window]. destruct (dialog_exists d); [|eauto].
    unfold bind. destruct (dispatch_logs P a d s) as [d1 [evs ->]].
    now apply IH.
Qed.

Lemma wait_window_typing (user : list gesture) :
  forall (d : ProfileDialog) (s : state P),
    forallb typing user = true ->
    dialog_exists d = true ->
    wait_window d user s = Blocked s.
Proof.
  induction user as [|g user IH]; intros d s Hall Hex; cbn [wait_window];
    rewrite Hex; [reflexivity|].
  cbn [forallb] in Hall. apply andb_prop in Hall. destruct Hall as [Hg Hall].
  destruct g; try discriminate Hg; unfold bind; cbn [dispatch ret];
    now apply IH.
Qed.

(** X8: a dialog returns as soon as the user dismisses it, whatever was
    typed or clicked before; a user who only types is waited for forever. *)
Theorem dialog_returns_when_dismissed (title : str)
  (initial_data : option (list (str * tk_val))) (s : state P) :
  (forall user g rest,
      dismisses g ->
      exists d s1,
        ProfileDialog_init title initial_data (user ++ g :: rest) s
        = Ret d s1)
  /\ (forall user,
        forallb typing user = true ->
        let d := setup_dialog title initial_data in
        ProfileDialog_init title initial_data user s =
        Blocked (logged s [Dialog_shown title (name_var d) (storage_var d)
                             (proxy_var d)])).
Proof.
  split.
  - intros user g rest Hg. unfold ProfileDialog_init, bind, log, modify.
    apply wait_window_returns. exact Hg.
  - intros user Hall d. unfold ProfileDialog_init, bind, log, modify.
    fold d. now rewrite (wait_window_typing user d _ Hall eq_refl).
Qed.

End Dialog.

Section Arguments.
Variable P : platform.

Lemma run_command_trace_head (cmd : list tk_val) (args : list str)
  (show : bool) (s : state P) :
  str_items 0 cmd = inr args ->
  exists evs,
    trace (final (run_command cmd show s)) =
    (trace s ++ [Subprocess_run args]) ++ evs.
Proof.
  intros Hargs. rewrite (run_command_args P _ _ _ _ Hargs).
  destruct (subprocess_run P args (world s)) as [[[e|done] w]|];
    [|destruct (returncode done =? 0)%Z|]; cbn [final trace];
    eexists; rewrite <- app_assoc; cbn [app]; reflexivity.
Qed.

Lemma grows_then_refresh (title message : str) (output : option str) :
  grows (if output_truthy output
         then bind (showinfo title message) (fun _ => @refresh_profiles P)
         else ret tt).
Proof.
  apply grows_if; [|apply grows_ret].
  apply grows_bind; [apply grows_log|intros _].
  apply grows_refresh_profiles.
Qed.

Lemma create_cmd_args (r : dialog_result) :
  str_items 0 (create_cmd P r) =
  inr ([python_path P; script_path P; lit "create"; result_name r]
         ++ flag "--proxy" (result_proxy r)
         ++ flag "--storage-path" (result_storage_path r)).
Proof.
  unfold create_cmd, option_flag, flag.
  now destruct (nonempty (result_proxy r)),
    (nonempty (result_storage_path r)).
Qed.

Lemma edit_cmd_args (p : profile) (id : str) (r : dialog_result) :
  profile_id p = TkStr id ->
  nonempty (result_name r) = true ->
  str_items 0 (edit_cmd P p r) =
  inr ([python_path P; script_path P; lit "edit"; id;
        lit "--name"; result_name r]
         ++ flag "--proxy" (result_proxy r)
         ++ flag "--storage-path" (result_storage_path r)).
Proof.
  intros Hid Hname. unfold edit_cmd, option_flag, flag. rewrite Hid, Hname.
  now destruct (nonempty (result_proxy r)),
    (nonempty (result_storage_path r)).
Qed.

(** X9: after a create dialog that returned a result, the next thing that
    happens is the [create] invocation with the name, then [--proxy] and its
    value when the proxy is not empty, then [--storage-path] and its value
    when the path is not empty; and typing the three fields and clicking OK
    returns exactly the trimmed fields. *)
Theorem create_invokes_tool_with_dialog_fields (s : state P) :
  (forall user d s1 r,
      ProfileDialog_init (lit "Create New Profile") None user s = Ret d s1 ->
      result d = Some r ->
      exists evs,
        trace (final (create_profile user s)) =
        trace s1 ++
          Subprocess_run
            ([python_path P; script_path P; lit "create"; result_name r]
               ++ flag "--proxy" (result_proxy r)
               ++ flag "--storage-path" (result_storage_path r))
          :: evs)
  /\ (forall name storage proxy more,
        nonempty (strip name) = true ->
        ProfileDialog_init (lit "Create New Profile") None
          (Type_name name :: Type_storage storage :: Type_proxy proxy
             :: Click_OK :: more) s =
        Ret {| dialog_title := lit "Create New Profile";
               name_var := name; storage_var := storage; proxy_var := proxy;
               result := Some {| result_name := strip name;
                                 result_storage_path := strip storage;
                                 result_proxy := strip proxy |};
               dialog_exists := false |}
          (logged s [Dialog_shown (lit "Create New Profile") [] [] []])).
Proof.
  split.
  - intros user d s1 r Hd Hres.
    unfold create_profile, bind at 1. rewrite Hd, Hres.
    match goal with
    | |- exists _, trace (final (bind ?c ?k ?s0)) = _ =>
        destruct (bind_trace_after P _ _ c k s0
                    (trace s1 ++ [Subprocess_run
                       ([python_path P; script_path P; lit "create";
                         result_name r]
                          ++ flag "--proxy" (result_proxy r)
                          ++ flag "--storage-path" (result_storage_path r))]))
          as [evs Hevs]
    end.
    + apply run_command_trace_head, create_cmd_args.
    + intros output. apply grows_then_refresh.
    + exists evs. rewrite Hevs. now rewrite <- app_assoc.
  - intros name storage proxy more Hname.
    unfold ProfileDialog_init, bind at 1, log, modify.
    cbn [wait_window setup_dialog dialog_exists]. unfold bind.
    cbn [dispatch ret]. unfold ok_clicked.
    cbn [name_var storage_var proxy_var]. rewrite Hname. cbn [negb ret].
    now destruct more.
Qed.

(** X10: after an edit dialog that returned a result, the [edit] invocation
    always carries [--name], and [--proxy] and [--storage-path] only for
    non-empty fields; in particular OK on an untouched dialog for a profile
    stored at "default" sends the name alone. *)
Theorem edit_always_names_the_profile (s : state P) (i : nat)
  (rest : list nat) (it : item) (id : str) :
  selection s = i :: rest ->
  nth_error (tree s) i = Some it ->
  cell_readback P (col_ID it) = TkStr id ->
  (forall user d s1 r,
      ProfileDialog_init (lit "Edit Profile")
        (Some (edit_initial_data (profile_of_item P it))) user s
      = Ret d s1 ->
      result d = Some r ->
      exists evs,
        trace (final (edit_profile user s)) =
        trace s1 ++
          Subprocess_run
            ([python_path P; script_path P; lit "edit"; id;
              lit "--name"; result_name r]
               ++ flag "--proxy" (result_proxy r)
               ++ flag "--storage-path" (result_storage_path r))
          :: evs)
  /\ (forall name more,
        cell_readback P (col_Name it) = TkStr name ->
        nonempty (strip name) = true ->
        cell_readback P (col_Storage_Path it) = TkStr (lit "default") ->
        exists evs,
          trace (final (edit_profile (Click_OK :: more) s)) =
          trace s ++
            Dialog_shown (lit "Edit Profile") name [] []
            :: Subprocess_run
                 [python_path P; script_path P; lit "edit"; id;
                  lit "--name"; strip name]
            :: evs).
Proof.
  intros Hsel Hrow Hid.
  assert (Hgeneral : forall user d s1 r,
      ProfileDialog_init (lit "Edit Profile")
        (Some (edit_initial_data (profile_of_item P it))) user s
      = Ret d s1 ->
      result d = Some r ->
      exists evs,
        trace (final (edit_profile user s)) =
        trace s1 ++
          Subprocess_run
            ([python_path P; script_path P; lit "edit"; id;
              lit "--name"; result_name r]
               ++ flag "--proxy" (result_proxy r)
               ++ flag "--storage-path" (result_storage_path r))
          :: evs).
  { intros user d s1 r Hd Hres.
    pose proof (returned_name_nonempty P _ _ _ _ _ _ _ Hd Hres) as Hname.
    unfold edit_profile, bind at 1.
    rewrite (get_selected_profile_row P _ _ _ _ Hsel Hrow).
    unfold bind at 1. rewrite Hd, Hres.
    match goal with
    | |- exists _, trace (final (bind ?c ?k ?s0)) = _ =>
        destruct (bind_trace_after P _ _ c k s0
                    (trace s1 ++ [Subprocess_run
                       ([python_path P; script_path P; lit "edit"; id;
                         lit "--name"; result_name r]
                          ++ flag "--proxy" (result_proxy r)
                          ++ flag "--storage-path" (result_storage_path r))]))
          as [evs Hevs]
    end.
    + apply run_command_trace_head. now apply edit_cmd_args.
    + intros output. apply grows_then_refresh.
    + exists evs. rewrite Hevs. now rewrite <- app_assoc. }
  split; [exact Hgeneral|].
  intros name more Hname Hblank Hpath.
  assert (Hd : ProfileDialog_init (lit "Edit Profile")
                 (Some (edit_initial_data (profile_of_item P it)))
                 (Click_OK :: more) s =
               Ret {| dialog_title := lit "Edit Profile";
                      name_var := name; storage_var := []; proxy_var := [];
                      result := Some {| result_name := strip name;
                                        result_storage_path := [];
                                        result_proxy := [] |};
                      dialog_exists := false |}
                 (logged s [Dialog_shown (lit "Edit Profile") name [] []])).
  { assert (Hsetup : setup_dialog (lit "Edit Profile")
                       (Some (edit_initial_data (profile_of_item P it))) =
                     {| dialog_title := lit "Edit Profile";
                        name_var := name; storage_var := []; proxy_var := [];
                        result := None; dialog_exists := true |}).
    { unfold setup_dialog, edit_initial_data, profile_of_item.
      cbn [profile_name profile_storage_path]. rewrite Hname, Hpath.
      reflexivity. }
    unfold ProfileDialog_init. rewrite Hsetup.
    unfold bind at 1, log, modify.
    cbn [wait_window dialog_exists name_var storage_var proxy_var].
    unfold bind. cbn [dispatch]. unfold ok_clicked.
    cbn [name_var storage_var proxy_var].
    rewrite Hblank. cbn [negb ret]. now destruct more. }
  destruct (Hgeneral _ _ _ _ Hd eq_refl) as [evs Hevs].
  exists evs. rewrite Hevs. cbn [logged trace result_name result_proxy
    result_storage_path flag nonempty app].
  now rewrite <- app_assoc.
Qed.

End Arguments.

Section Invariant.
Variable P : platform.
Variable J : list item -> list nat -> Prop.
Variable Q : item -> Prop.
Hypothesis J_insert : forall t sel it, Q it -> J t sel -> J (t ++ [it]) sel.
Hypothesis J_clear : J [] [].
Hypothesis Q_built :
  forall id name path (yes : bool),
    Q {| col_ID := id; col_Name := name; col_Storage_Path := path;
         col_Proxy := PStr (if yes then lit "yes" else lit "no") |}.

Lemma keeps_ret A (a : A) : keeps J (@ret P A a).
Proof. now intros s. Qed.

Lemma keeps_raise A (e : exn) : keeps J (@raise P A e).
Proof. now intros s. Qed.

Lemma keeps_lift A (r : exn + A) : keeps J (@lift P A r).
Proof. destruct r; [apply keeps_raise | apply keeps_ret]. Qed.

Lemma keeps_bind A B (c : M P A) (k : A -> M P B) :
  keeps J c -> (forall a, keeps J (k a)) -> keeps J (bind c k).
Proof.
  intros Hc Hk s Hs. unfold bind. specialize (Hc s Hs).
  destruct (c s) as [a s1 | e s1 | s1]; cbn [final] in *; auto.
  now apply Hk.
Qed.

Lemma keeps_try_except A (body : M P A) handles (handler : exn -> M P A) :
  keeps J body -> (forall e, keeps J (handler e)) ->
  keeps J (try_except body handles handler).
Proof.
  intros Hb Hh s Hs. unfold try_except. specialize (Hb s Hs).
  destruct (body s) as [a s1 | e s1 | s1]; cbn [final] in *; auto.
  destruct (handles e); cbn [final]; auto. now apply Hh.
Qed.

Lemma keeps_try_finally A (body : M P A) (cleanup : M P unit) :
  keeps J body -> keeps J cleanup -> keeps J (try_finally body cleanup).
Proof.
  intros Hb Hf s Hs. unfold try_finally. specialize (Hb s Hs).
  destruct (body s) as [a s1 | e s1 | s1]; cbn [final] in *; auto.
  - exact (keeps_bind _ _ _ _ Hf (fun _ => keeps_ret A a) s1 Hb).
  - exact (keeps_bind _ A _ _ Hf (fun _ => keeps_raise A e) s1 Hb).
Qed.

Lemma keeps_modify (f : state P -> state P) :
  (forall s, tree (f s) = tree s /\ selection (f s) = selection s) ->
  keeps J (modify f).
Proof. intros Hf s Hs. cbn. destruct (Hf s) as [-> ->]. exact Hs. Qed.

Lemma keeps_log (e : event) : keeps J (@log P e).
Proof. apply keeps_modify. now intros s. Qed.

Lemma keeps_set_status (m : str) : keeps J (@set_status P m).
Proof. apply keeps_modify. now intros s. Qed.

Lemma keeps_for_each A (xs : list A) (body : A -> M P unit) :
  (forall x, keeps J (body x)) -> keeps J (for_each xs body).
Proof.
  intros Hb. induction xs as [|x xs IH]; cbn [for_each].
  - apply keeps_ret.
  - apply keeps_bind; auto.
Qed.

Lemma keeps_if A (b : bool) (c1 c2 : M P A) :
  keeps J c1 -> keeps J c2 -> keeps J (if b then c1 else c2).
Proof. now destruct b. Qed.

Lemma keeps_run_command cmd show : keeps J (@run_command P cmd show).
Proof.
  intros s Hs. destruct (run_command_keeps_table P cmd show s) as [-> ->].
  exact Hs.
Qed.

Lemma keeps_insert_profile o : keeps J (@insert_profile P o).
Proof.
  intros s Hs. unfold insert_profile, bind.
  destruct (get_method o (lit "proxy_host")) as [e|v]; cbn [lift raise ret final];
    [exact Hs|].
  destruct (getitem o (lit "id")) as [e|a]; cbn [lift raise ret final];
    [exact Hs|].
  destruct (getitem o (lit "name")) as [e|b]; cbn [lift raise ret final];
    [exact Hs|].
  destruct (getitem o (lit "storage_path")) as [e|c];
    cbn [lift raise ret final]; [exact Hs|].
  cbn [tree_insert modify final tree selection].
  apply J_insert; [apply Q_built|exact Hs].
Qed.

Lemma keeps_refresh_profiles : keeps J (@refresh_profiles P).
Proof.
  unfold refresh_profiles.
  apply keeps_bind; [apply keeps_set_status|intros _].
  apply keeps_bind; [intros s _; exact J_clear|intros _].
  apply keeps_bind; [apply keeps_run_command|intros [out|]];
    [|apply keeps_ret].
  apply keeps_if; [|apply keeps_ret].
  apply keeps_try_except.
  - apply keeps_bind; [apply keeps_lift|intros profiles].
    apply keeps_bind; [apply keeps_lift|intros elements].
    apply keeps_bind; [|intros _; apply keeps_set_status].
    apply keeps_for_each. apply keeps_insert_profile.
  - intros e. apply keeps_bind; [apply keeps_log|intros _].
    apply keeps_set_status.
Qed.

Lemma keeps_ProfileDialog_init title initial_data user :
  keeps J (@ProfileDialog_init P title initial_data user).
Proof.
  intros s Hs.
  destruct (ProfileDialog_init_logs P title initial_data user s) as [evs ->].
  exact Hs.
Qed.

Lemma get_selected_profile_logs (s : state P) :
  exists evs, final (get_selected_profile s) = logged s evs.
Proof.
  unfold get_selected_profile, bind, gets.
  destruct (selection s) as [|i rest].
  - eexists. reflexivity.
  - cbn [ret]. destruct (nth_error (tree s) i); exists [];
      now rewrite logged_nil.
Qed.

Lemma keeps_get_selected_profile : keeps J (@get_selected_profile P).
Proof.
  intros s Hs. destruct (get_selected_profile_logs s) as [evs ->].
  exact Hs.
Qed.

Lemma keeps_then_refresh (title message : str) (output : option str) :
  keeps J (if output_truthy output
           then bind (showinfo title message) (fun _ => @refresh_profiles P)
           else ret tt).
Proof.
  apply keeps_if; [|apply keeps_ret].
  apply keeps_bind; [apply keeps_log|intros _].
  apply keeps_refresh_profiles.
Qed.

Lemma keeps_command (b : button) : keeps J (@command P b).
Proof.
  destruct b as [user|user|user| |]; cbn [command].
  - unfold create_profile.
    apply keeps_bind; [apply keeps_ProfileDialog_init|intros d].
    destruct (result d); [|apply keeps_ret].
    apply keeps_bind; [apply keeps_run_command|intros output].
    apply keeps_then_refresh.
  - unfold edit_profile.
    apply keeps_bind; [apply keeps_get_selected_profile|intros [p|]];
      [|apply keeps_ret].
    apply keeps_bind; [apply keeps_ProfileDialog_init|intros d].
    destruct (result d); [|apply keeps_ret].
    apply keeps_bind; [apply keeps_run_command|intros output].
    apply keeps_then_refresh.
  - unfold delete_profile.
    apply keeps_bind; [apply keeps_get_selected_profile|intros [p|]];
      [|apply keeps_ret].
    apply keeps_bind;
      [apply keeps_bind; [apply keeps_log|intros _; apply keeps_ret]
      |intros [yes|]]; [|apply keeps_ret].
    apply keeps_bind; [apply keeps_run_command|intros output].
    apply keeps_then_refresh.
  - unfold open_profile.
    apply keeps_bind; [apply keeps_get_selected_profile|intros [p|]];
      [|apply keeps_ret].
    apply keeps_bind; [apply keeps_log|intros _]. apply keeps_log.
  - apply keeps_refresh_profiles.
Qed.

Lemma keeps_mainloop (clicks : list button) :
  forall s : state P,
    J (tree s) (selection s) ->
    J (tree (@mainloop P clicks s)) (selection (@mainloop P clicks s)).
Proof.
  induction clicks as [|b clicks IH]; intros s Hs; cbn [mainloop];
    [exact Hs|].
  pose proof (keeps_command b s Hs) as Hb.
  destruct (@command P b s) as [a s1 | e s1 | s1]; cbn [final] in Hb; auto.
Qed.

End Invariant.

Section Loop.
Variable P : platform.

(** X11: if every selected position is a row of the table, this still
    holds after any sequence of button clicks, and [get_selected_profile]
    finds its row: it returns without an exception. *)
Theorem selection_stays_in_table (clicks : list button) (s : state P) :
  selection_in_table s ->
  selection_in_table (mainloop clicks s)
  /\ exists selected evs,
       get_selected_profile s = Ret selected (logged s evs).
Proof.
  intros Hs. split.
  - apply (keeps_mainloop P
             (fun t sel => Forall (fun i => i < List.length t) sel)
             (fun _ => True)); [| |auto|exact Hs].
    + intros t sel it _ H. eapply Forall_impl; [|exact H].
      intros i Hi. rewrite length_app. cbn. apply Nat.lt_lt_add_r. exact Hi.
    + constructor.
  - unfold get_selected_profile, bind, gets.
    destruct (selection s) as [|i rest] eqn:Hsel.
    + do 2 eexists. reflexivity.
    + cbn [ret]. unfold selection_in_table in Hs. rewrite Hsel in Hs.
      apply Forall_inv in Hs. apply nth_error_Some in Hs.
      destruct (nth_error (tree s) i) as [it|]; [|contradiction].
      exists (Some (profile_of_item P it)), []. now rewrite logged_nil.
Qed.

Lemma yes_no_insert (t : list item) (sel : list nat) (it : item) :
  proxy_cell_yes_no it ->
  Forall proxy_cell_yes_no t -> Forall proxy_cell_yes_no (t ++ [it]).
Proof.
  intros Hit Ht. apply Forall_app. split; [exact Ht|]. now constructor.
Qed.

Lemma yes_no_built (id name path : pyval) (yes : bool) :
  proxy_cell_yes_no
    {| col_ID := id; col_Name := name; col_Storage_Path := path;
       col_Proxy := PStr (if yes then lit "yes" else lit "no") |}.
Proof. destruct yes; [now left|now right]. Qed.

(** X12: if the proxy cell of every row reads "yes" or "no", this still
    holds after any sequence of button clicks: no operation ever writes
    anything else, such as the proxy host, into the table. *)
Theorem proxy_column_only_yes_or_no (clicks : list button) (s : state P) :
  Forall proxy_cell_yes_no (tree s) ->
  Forall proxy_cell_yes_no (tree (mainloop clicks s)).
Proof.
  intros Hs.
  exact (keeps_mainloop P (fun t _ => Forall proxy_cell_yes_no t)
           proxy_cell_yes_no yes_no_insert (Forall_nil _) yes_no_built
           clicks s Hs).
Qed.

(** ** Refresh rebuilds *)

Lemma refresh_profiles_from_scratch (s : state P) (t : list item)
  (sel : list nat) (status : str) :
  refresh_profiles
    {| tree := t; selection := sel; status_var := status;
       world := world s; trace := trace s |}
  = refresh_profiles s.
Proof. now rewrite !refresh_profiles_listing. Qed.

(** X13: a refresh does not depend on what the window showed before: the
    outcome is the same from any table, selection and status; afterwards no
    row is selected and every proxy cell reads "yes" or "no". *)
Theorem refresh_rebuilds_table (s : state P) :
  (forall t sel status,
      refresh_profiles
        {| tree := t; selection := sel; status_var := status;
           world := world s; trace := trace s |}
      = refresh_profiles s)
  /\ selection (final (refresh_profiles s)) = []
  /\ Forall proxy_cell_yes_no (tree (final (refresh_profiles s))).
Proof.
  split; [intros; apply refresh_profiles_from_scratch|].
  rewrite <- (refresh_profiles_from_scratch s [] [] (status_var s)).
  set (s0 := {| tree := []; selection := []; status_var := status_var s;
                world := world s; trace := trace s |}).
  split.
  - exact (keeps_refresh_profiles P (fun _ sel => sel = []) (fun _ => True)
             (fun _ _ _ _ H => H) eq_refl (fun _ _ _ _ => I) s0 eq_refl).
  - exact (keeps_refresh_profiles P (fun t _ => Forall proxy_cell_yes_no t)
             proxy_cell_yes_no yes_no_insert (Forall_nil _) yes_no_built
             s0 (Forall_nil _)).
Qed.

End Loop.

Section Decoded.
Variable P : platform.

(** [refresh_profiles] once the output is decoded. *)
Lemma refresh_profiles_decoded (s : state P) (done : CompletedProcess)
  (w : World P) (v : pyval) :
  subprocess_run P (list_args P) (world s) = Some (inr done, w) ->
  returncode done = 0%Z ->
  json_loads P (stdout done) = inr v ->
  refresh_profiles s =
  bind (lift (iterate v)) (fun elements =>
  bind (for_each elements (@insert_profile P)) (fun _ =>
  set_status (lit "Loaded " ++ str_of_nat (len v) ++ lit " profiles")))
    {| tree := []; selection := []; status_var := lit "Ready"; world := w;
       trace := trace s ++ [Subprocess_run (list_args P)] |}.
Proof.
  intros Hrun Hcode Hjson.
  rewrite refresh_profiles_listing, Hrun, Hcode. cbn [Z.eqb].
  rewrite (decoded_output_nonempty P _ _ Hjson). cbv zeta.
  unfold try_except, bind at 1. rewrite Hjson. cbn [lift ret].
  match goal with
  | |- match ?c with _ => _ end = ?c' => change c' with c; destruct c as [a s1|e s1|s1] eqn:Hc
  end; try reflexivity.
  (* a raise: it is no JSONDecodeError *)
  assert (Hcls : is_JSONDecodeError e = false).
  { unfold bind in Hc. destruct (iterate v) as [e0|elements] eqn:Hit.
    - cbn [lift raise] in Hc. injection Hc as <- _.
      destruct v; cbn [iterate] in Hit; try discriminate;
        now injection Hit as <-.
    - cbn [lift ret] in Hc.
      assert (Hfe : forall xs (s0 s2 : state P) e1,
                 for_each xs (@insert_profile P) s0 = Raise e1 s2 ->
                 is_JSONDecodeError e1 = false).
      { clear. induction xs as [|x xs IH]; intros s0 s2 e1;
          cbn [for_each]; [discriminate|].
        unfold bind at 1.
        destruct (insert_profile x s0) as [u s3|e3 s3|s3] eqn:Hx;
          [now apply IH| |discriminate].
        intros [= <- _]. unfold insert_profile, bind in Hx.
        destruct x; cbn [get_method getitem lift raise ret] in Hx;
          try (injection Hx as <- _; reflexivity).
        destruct (dict_get d (lit "id")); cbn [lift raise ret] in Hx;
          [|injection Hx as <- _; reflexivity].
        destruct (dict_get d (lit "name")); cbn [lift raise ret] in Hx;
          [|injection Hx as <- _; reflexivity].
        destruct (dict_get d (lit "storage_path"));
          cbn [lift raise ret] in Hx;
          [discriminate|injection Hx as <- _; reflexivity]. }
      destruct (for_each elements (@insert_profile P) _) as [u s3|e3 s3|s3]
        eqn:Hfor; [discriminate| |discriminate].
      injection Hc as <- _. exact (Hfe _ _ _ _ Hfor). }
  now rewrite Hcls.
Qed.

Lemma iterate_len (v : pyval) (elements : list pyval) :
  iterate v = inr elements -> len v = List.length elements.
Proof.
  destruct v; cbn [iterate len]; try discriminate; intros [= <-];
    now rewrite ?length_map.
Qed.

(** X14: when the output decodes to a value whose elements all have rows,
    the table is exactly these rows, in order, and the status bar reports
    their number. *)
Theorem refresh_reports_row_count (s : state P) (done : CompletedProcess)
  (w : World P) (v : pyval) (objs : list pyval) (rows : list item) :
  subprocess_run P (list_args P) (world s) = Some (inr done, w) ->
  returncode done = 0%Z ->
  json_loads P (stdout done) = inr v ->
  iterate v = inr objs ->
  Forall2 row_of objs rows ->
  refresh_profiles s =
  Ret tt {| tree := rows; selection := [];
            status_var := lit "Loaded " ++ str_of_nat (List.length rows)
                            ++ lit " profiles";
            world := w;
            trace := trace s ++ [Subprocess_run (list_args P)] |}.
Proof.
  intros Hrun Hcode Hjson Hit Hrows.
  rewrite (refresh_profiles_decoded s done w v Hrun Hcode Hjson).
  unfold bind at 1. rewrite Hit. cbn [lift ret].
  unfold bind. rewrite (for_each_rows P _ _ Hrows).
  cbn [set_status modify tree selection world trace app].
  now rewrite (iterate_len _ _ Hit), (Forall2_length Hrows).
Qed.

(** X15: when the output decodes to a value that is no array, string or
    object ([null], a boolean, a number), the refresh ends in an uncaught
    [TypeError], with the table empty and no error box. *)
Theorem refresh_not_iterable (s : state P) (done : CompletedProcess)
  (w : World P) (v : pyval) :
  subprocess_run P (list_args P) (world s) = Some (inr done, w) ->
  returncode done = 0%Z ->
  json_loads P (stdout done) = inr v ->
  (forall l, v <> PList l) -> (forall t, v <> PStr t) ->
  (forall d, v <> PDict d) ->
  refresh_profiles s =
  Raise (Exn TypeError
           (lit "'" ++ type_name v ++ lit "' object is not iterable"))
    {| tree := []; selection := []; status_var := lit "Ready"; world := w;
       trace := trace s ++ [Subprocess_run (list_args P)] |}.
Proof.
  intros Hrun Hcode Hjson Hl Ht Hd.
  rewrite (refresh_profiles_decoded s done w v Hrun Hcode Hjson).
  unfold bind.
  destruct v; try reflexivity;
    [now destruct (Ht s0) | now destruct (Hl l) | now destruct (Hd d)].
Qed.

Lemma for_each_not_object (pre post : list pyval) (rows : list item)
  (bad : pyval) :
  Forall2 row_of pre rows ->
  (forall d, bad <> PDict d) ->
  forall s : state P,
    for_each (pre ++ bad :: post) (@insert_profile P) s =
    Raise (Exn AttributeError
             (lit "'" ++ type_name bad ++ lit "' object has no attribute 'get'"))
      {| tree := tree s ++ rows; selection := selection s;
         status_var := status_var s; world := world s;
         trace := trace s |}.
Proof.
  intros Hrows Hbad.
  induction Hrows as [|o it pre rows Hrow _ IH]; intros s;
    cbn [for_each app]; unfold bind.
  - rewrite app_nil_r. unfold insert_profile, bind.
    destruct bad; cbn [get_method lift raise]; try (now destruct s).
    now destruct (Hbad d).
  - rewrite (insert_profile_row P _ _ _ Hrow), IH.
    cbn [tree selection status_var world trace].
    now rewrite <- app_assoc.
Qed.

(** X16: when an element of the decoded output is not an object, the
    refresh ends in an uncaught [AttributeError] for its [get], and the rows
    of the elements before it stay in the table. *)
Theorem refresh_element_not_object (s : state P) (done : CompletedProcess)
  (w : World P) (v : pyval) (pre post : list pyval) (rows : list item)
  (bad : pyval) :
  subprocess_run P (list_args P) (world s) = Some (inr done, w) ->
  returncode done = 0%Z ->
  json_loads P (stdout done) = inr v ->
  iterate v = inr (pre ++ bad :: post) ->
  Forall2 row_of pre rows ->
  (forall d, bad <> PDict d) ->
  refresh_profiles s =
  Raise (Exn AttributeError
           (lit "'" ++ type_name bad ++ lit "' object has no attribute 'get'"))
    {| tree := rows; selection := []; status_var := lit "Ready"; world := w;
       trace := trace s ++ [Subprocess_run (list_args P)] |}.
Proof.
  intros Hrun Hcode Hjson Hit Hrows Hbad.
  rewrite (refresh_profiles_decoded s done w v Hrun Hcode Hjson).
  unfold bind at 1. rewrite Hit. cbn [lift ret].
  unfold bind. now rewrite (for_each_not_object _ _ _ _ Hrows Hbad).
Qed.

End Decoded.

Section StartupSpec.
Variable P : platform.





(** X18: at startup a [list] that exits nonzero or cannot be spawned still
    leads to the event loop, with an empty table and the error box; an
    object without one of its keys ends [main] in the [KeyError] before the
    event loop is entered. *)
Theorem startup_listing_outcomes (path_exists : str -> bool) (cwd : str)
  (w : World P) :
  path_exists (lit "scripts/manage_camoufox_profiles.py") = true ->
  path_exists (lit ".venv/bin/python") = true ->
  (forall done w',
      subprocess_run P (list_args P) w = Some (inr done, w') ->
      returncode done <> 0%Z ->
      main P path_exists cwd w =
      Interactive
        {| tree := []; selection := []; status_var := lit "Ready";
           world := w';
           trace := [Subprocess_run (list_args P); command_failed done] |})
  /\ (forall e w',
        subprocess_run P (list_args P) w = Some (inl e, w') ->
        main P path_exists cwd w =
        Interactive
          {| tree := []; selection := []; status_var := lit "Ready";
             world := w';
             trace := [Subprocess_run (list_args P);
                       Showerror (lit "Error")
                         (lit "Failed to run command: " ++ exn_str e)] |})
  /\ (forall done w' pre post rows d key,
        subprocess_run P (list_args P) w = Some (inr done, w') ->
        returncode done = 0%Z ->
        json_loads P (stdout done) = inr (PList (pre ++ PDict d :: post)) ->
        Forall2 row_of pre rows ->
        first_missing_key d = Some key ->
        main P path_exists cwd w =
        Traceback (Exn KeyError (lit "'" ++ key ++ lit "'"))
          {| tree := rows; selection := []; status_var := lit "Ready";
             world := w';
             trace := [Subprocess_run (list_args P)] |}).
Proof.
  intros Hscript Hvenv. unfold main. rewrite Hscript, Hvenv. cbn [negb].
  repeat split.
  - intros done w' Hrun Hcode. rewrite refresh_profiles_listing.
    cbn [initial_state world trace app]. rewrite Hrun.
    apply Z.eqb_neq in Hcode. now rewrite Hcode.
  - intros e w' Hrun. rewrite refresh_profiles_listing.
    cbn [initial_state world trace app]. now rewrite Hrun.
  - intros done w' pre post rows d key Hrun Hcode Hjson Hrows Hkey.
    rewrite (refresh_profiles_decoded P (initial_state P w) done w' _
               Hrun Hcode Hjson).
    unfold bind at 1. cbn [iterate lift ret]. unfold bind.
    now rewrite (for_each_missing P _ _ _ _ _ Hrows Hkey).
Qed.

End StartupSpec.


(** * The further properties on the fixture platform *)


(** Create, edit and delete against a tool that succeeds and says so. *)
Lemma successful_operation_example :
  let s := Fixture.window [Fixture.p1_row] true
             [Fixture.exited 0 "ok" ""; Fixture.exited 0 "[]" ""] in
  (exists s',
      create_profile [Type_name (lit "B"); Click_OK] s = refresh_profiles s'
      /\ world s' = [Fixture.exited 0 "[]" ""])
  /\ (exists s',
        edit_profile [Click_OK] s = refresh_profiles s'
        /\ world s' = [Fixture.exited 0 "[]" ""])
  /\ (exists s',
        delete_profile (Some false) s = refresh_profiles s'
        /\ world s' = [Fixture.exited 0 "[]" ""]).
Proof.
  cbv zeta. split; [|split].
  - eexists. split.
    + eapply (proj1 (successful_operation_refreshes Fixture.platform _)).
      * reflexivity.
      * reflexivity.
      * reflexivity.
      * reflexivity.
      * reflexivity.
      * reflexivity.
    + reflexivity.
  - eexists. split.
    + eapply (proj1 (proj2 (successful_operation_refreshes
                              Fixture.platform _))).
      * reflexivity.
      * reflexivity.
      * reflexivity.
      * reflexivity.
      * reflexivity.
      * reflexivity.
      * reflexivity.
      * reflexivity.
    + reflexivity.
  - eexists. split.
    + eapply (proj2 (proj2 (successful_operation_refreshes
                              Fixture.platform _))).
      * reflexivity.
      * reflexivity.
      * reflexivity.
      * reflexivity.
      * reflexivity.
      * reflexivity.
    + reflexivity.
Defined.

(** Create, edit and delete against a tool that succeeds in silence. *)
Lemma silent_success_example :
  let s := Fixture.window [Fixture.p1_row] true [Fixture.exited 0 "" ""] in
  (exists s',
      create_profile [Type_name (lit "B"); Click_OK] s = Ret tt s'
      /\ tree s' = [Fixture.p1_row] /\ invocations (trace s') = 1)
  /\ (exists s',
        edit_profile [Click_OK] s = Ret tt s'
        /\ tree s' = [Fixture.p1_row] /\ invocations (trace s') = 1)
  /\ (exists s',
        delete_profile (Some false) s = Ret tt s'
        /\ tree s' = [Fixture.p1_row] /\ invocations (trace s') = 1).
Proof.
  cbv zeta. split; [|split].
  - eexists. split.
    + eapply (proj1 (silent_success_skips_refresh Fixture.platform _)).
      * reflexivity.
      * reflexivity.
      * reflexivity.
      * reflexivity.
      * reflexivity.
      * reflexivity.
    + split; reflexivity.
  - eexists. split.
    + eapply (proj1 (proj2 (silent_success_skips_refresh
                              Fixture.platform _))).
      * reflexivity.
      * reflexivity.
      * reflexivity.
      * reflexivity.
      * reflexivity.
      * reflexivity.
      * reflexivity.
      * reflexivity.
    + split; reflexivity.
  - eexists. split.
    + eapply (proj2 (proj2 (silent_success_skips_refresh
                              Fixture.platform _))).
      * reflexivity.
      * reflexivity.
      * reflexivity.
      * reflexivity.
      * reflexivity.
      * reflexivity.
    + split; reflexivity.
Defined.

(** The three buttons that need a row, with none selected. *)
Lemma no_selection_example :
  let s := Fixture.window [Fixture.p1_row] false [] in
  let warned := logged s [Showwarning (lit "No Selection")
                            (lit "Please select a profile first.")] in
  edit_profile [Click_OK] s = Ret tt warned
  /\ delete_profile (Some true) s = Ret tt warned
  /\ open_profile s = Ret tt warned.
Proof.
  cbv zeta.
  pose proof (no_selection_only_warns Fixture.platform
                (Fixture.window [Fixture.p1_row] false []) eq_refl) as H.
  cbv zeta in H. destruct H as [He [Hd Ho]].
  split; [exact (He [Click_OK])|]. split; [exact (Hd (Some true))|exact Ho].
Defined.

(** Deleting the profile whose id is the number 42. *)
Lemma integer_id_example :
  delete_profile (Some true)
    (Fixture.window [Fixture.numbered_row] true [Fixture.exited 0 "ok" ""])
  = Ret tt
      (@Build_state Fixture.platform [Fixture.numbered_row] [0] (lit "Ready")
         [Fixture.exited 0 "ok" ""]
         [Askyesnocancel (lit "Confirm Deletion")
            (delete_question
               (profile_of_item Fixture.platform Fixture.numbered_row))
            (Some true);
          int_item_error]).
Proof.
  exact (proj1 (integer_id_never_reaches_tool Fixture.platform
                  (Fixture.window [Fixture.numbered_row] true
                     [Fixture.exited 0 "ok" ""])
                  0 [] Fixture.numbered_row 42 eq_refl eq_refl eq_refl)
           true).
Defined.

(** Escape on the create dialog, and on the edit dialog of [p1]. *)
Lemma dismissed_dialog_example :
  create_profile [Press_Escape; Click_OK] Fixture.refused
  = Ret tt
      (logged Fixture.refused
         [Dialog_shown (lit "Create New Profile") [] [] []])
  /\ edit_profile [Press_Escape; Click_OK] Fixture.refused
     = Ret tt
         (logged Fixture.refused
            [Dialog_shown (lit "Edit Profile") (lit "A") [] []]).
Proof.
  split.
  - exact (proj1 (dismissed_dialog_does_nothing Fixture.platform
                    Fixture.refused Press_Escape [Click_OK]
                    (or_intror (or_introl eq_refl)))).
  - exact (proj2 (dismissed_dialog_does_nothing Fixture.platform
                    Fixture.refused Press_Escape [Click_OK]
                    (or_intror (or_introl eq_refl)))
             0 [] Fixture.p1_row eq_refl eq_refl).
Defined.

(** A name typed with spaces around it. *)
Lemma dialog_result_example :
  exists d s1,
    ProfileDialog_init (lit "Create New Profile") None
      [Type_name (lit "  B "); Click_OK] (Fixture.window [] false [])
    = Ret d s1
    /\ dialog_exists d = false
    /\ result d = Some {| result_name := lit "B";
                          result_storage_path := []; result_proxy := [] |}
    /\ trimmed_result {| result_name := lit "B";
                         result_storage_path := []; result_proxy := [] |}.
Proof.
  do 2 eexists. split; [reflexivity|].
  pose proof (dialog_result_is_trimmed Fixture.platform
                (lit "Create New Profile") None
                [Type_name (lit "  B "); Click_OK]
                (Fixture.window [] false []) _ _ eq_refl) as H.
  destruct H as [Hex [_ [_ Hres]]].
  split; [exact Hex|]. split; [reflexivity|]. exact (Hres _ eq_refl).
Defined.

(** A blank submission followed by closing the window, and a user who
    types a name and walks away. *)
Lemma dialog_returns_example :
  (exists d s1,
      ProfileDialog_init (lit "Create New Profile") None
        ([Type_name (lit " "); Click_OK] ++ Close_window :: [Click_OK])
        (Fixture.window [] false [])
      = Ret d s1)
  /\ ProfileDialog_init (lit "Create New Profile") None
       [Type_name (lit "B")] (Fixture.window [] false [])
     = Blocked
         (logged (Fixture.window [] false [])
            [Dialog_shown (lit "Create New Profile") [] [] []]).
Proof.
  split.
  - exact (proj1 (dialog_returns_when_dismissed Fixture.platform
                    (lit "Create New Profile") None
                    (Fixture.window [] false []))
             [Type_name (lit " "); Click_OK] Close_window [Click_OK]
             (or_intror (or_intror eq_refl))).
  - exact (proj2 (dialog_returns_when_dismissed Fixture.platform
                    (lit "Create New Profile") None
                    (Fixture.window [] false []))
             [Type_name (lit "B")] eq_refl).
Defined.

(** Creating [B] with a proxy and no storage path. *)
Lemma create_fields_example :
  (exists evs,
      trace (final (create_profile
                      [Type_name (lit " B"); Type_storage (lit "  ");
                       Type_proxy (lit "h:1:u:p"); Click_OK]
                      Fixture.refused))
      = [Dialog_shown (lit "Create New Profile") [] [] []]
          ++ Subprocess_run
               ([python_path Fixture.platform; script_path Fixture.platform;
                 lit "create"; lit "B"]
                  ++ [lit "--proxy"; lit "h:1:u:p"] ++ [])
          :: evs)
  /\ (exists d,
        ProfileDialog_init (lit "Create New Profile") None
          [Type_name (lit " B"); Type_storage (lit "  ");
           Type_proxy (lit "h:1:u:p"); Click_OK] Fixture.refused
        = Ret d (logged Fixture.refused
                   [Dialog_shown (lit "Create New Profile") [] [] []])
        /\ result d = Some {| result_name := lit "B";
                              result_storage_path := [];
                              result_proxy := lit "h:1:u:p" |}).
Proof.
  split.
  - exact (proj1 (create_invokes_tool_with_dialog_fields Fixture.platform
                    Fixture.refused)
             [Type_name (lit " B"); Type_storage (lit "  ");
              Type_proxy (lit "h:1:u:p"); Click_OK]
             _ _ {| result_name := lit "B"; result_storage_path := [];
                    result_proxy := lit "h:1:u:p" |}
             eq_refl eq_refl).
  - eexists. split.
    + exact (proj2 (create_invokes_tool_with_dialog_fields Fixture.platform
                      Fixture.refused)
               (lit " B") (lit "  ") (lit "h:1:u:p") [] eq_refl).
    + reflexivity.
Defined.

(** OK on the untouched edit dialog of [p1], stored at "default". *)
Lemma edit_names_example :
  exists evs,
    trace (final (edit_profile [Click_OK] Fixture.refused))
    = trace Fixture.refused
        ++ Dialog_shown (lit "Edit Profile") (lit "A") [] []
        :: Subprocess_run
             [python_path Fixture.platform; script_path Fixture.platform;
              lit "edit"; lit "p1"; lit "--name"; lit "A"]
        :: evs.
Proof.
  exact (proj2 (edit_always_names_the_profile Fixture.platform
                  Fixture.refused 0 [] Fixture.p1_row (lit "p1")
                  eq_refl eq_refl eq_refl)
           (lit "A") [] eq_refl eq_refl eq_refl).
Defined.

(** A refresh, an open and a cancelled delete, from [p1] selected. *)
Lemma selection_example :
  selection_in_table
    (mainloop [Open_Profile; Delete_Profile None; Refresh; Open_Profile]
       Fixture.refused)
  /\ exists selected evs,
       get_selected_profile Fixture.refused
       = Ret selected (logged Fixture.refused evs).
Proof.
  apply (selection_stays_in_table Fixture.platform).
  repeat constructor.
Defined.

(** The same clicks keep the proxy column to "yes" and "no". *)
Lemma proxy_column_invariant_example :
  Forall proxy_cell_yes_no
    (tree (mainloop [Open_Profile; Delete_Profile None; Refresh; Open_Profile]
             Fixture.refused)).
Proof.
  apply (proxy_column_only_yes_or_no Fixture.platform).
  constructor; [now right|constructor].
Defined.

(** One profile listed: one row, and "Loaded 1 profiles". *)
Lemma row_count_example :
  refresh_profiles
    (Fixture.window [] false
       [inr {| returncode := 0; stdout := Fixture.one_profile_json;
               stderr := [] |}])
  = Ret tt
      (@Build_state Fixture.platform
         [Fixture.row "p1" "A" "default" "yes"] []
         (lit "Loaded 1 profiles") []
         [Subprocess_run (list_args Fixture.platform)]).
Proof.
  apply (refresh_reports_row_count Fixture.platform
           (Fixture.window [] false
              [inr {| returncode := 0; stdout := Fixture.one_profile_json;
                      stderr := [] |}])
           {| returncode := 0; stdout := Fixture.one_profile_json;
              stderr := [] |} []
           (PList [PDict [(lit "id", PStr (lit "p1"));
                          (lit "name", PStr (lit "A"));
                          (lit "storage_path", PStr (lit "default"));
                          (lit "proxy_host", PStr (lit "1.2.3.4"))]])
           [PDict [(lit "id", PStr (lit "p1"));
                   (lit "name", PStr (lit "A"));
                   (lit "storage_path", PStr (lit "default"));
                   (lit "proxy_host", PStr (lit "1.2.3.4"))]]
           [Fixture.row "p1" "A" "default" "yes"]).
  - reflexivity.
  - reflexivity.
  - vm_compute. reflexivity.
  - reflexivity.
  - constructor; [|constructor].
    eexists. split; [reflexivity|]. repeat split; try reflexivity.
    intros H. exfalso. apply H. eexists. split; reflexivity.
Defined.

(** A tool that prints the number 42. *)
Lemma not_iterable_example :
  refresh_profiles
    (Fixture.window [Fixture.p1_row] false [Fixture.exited 0 "42" ""])
  = Raise (Exn TypeError (lit "'int' object is not iterable"))
      (@Build_state Fixture.platform [] [] (lit "Ready") []
         [Subprocess_run (list_args Fixture.platform)]).
Proof.
  apply (refresh_not_iterable Fixture.platform
           (Fixture.window [Fixture.p1_row] false [Fixture.exited 0 "42" ""])
           {| returncode := 0; stdout := lit "42"; stderr := [] |} []
           (PInt 42)).
  - reflexivity.
  - reflexivity.
  - vm_compute. reflexivity.
  - discriminate.
  - discriminate.
  - discriminate.
Defined.

(** A listing whose second element is a string. *)
Lemma element_not_object_example :
  refresh_profiles
    (Fixture.window [] false
       [inr {| returncode := 0; stdout := Fixture.stray_element_json;
               stderr := [] |}])
  = Raise (Exn AttributeError (lit "'str' object has no attribute 'get'"))
      (@Build_state Fixture.platform [Fixture.p1_row] [] (lit "Ready") []
         [Subprocess_run (list_args Fixture.platform)]).
Proof.
  apply (refresh_element_not_object Fixture.platform
           (Fixture.window [] false
              [inr {| returncode := 0; stdout := Fixture.stray_element_json;
                      stderr := [] |}])
           {| returncode := 0; stdout := Fixture.stray_element_json;
              stderr := [] |} []
           (PList [PDict [(lit "id", PStr (lit "p1"));
                          (lit "name", PStr (lit "A"));
                          (lit "storage_path", PStr (lit "default"))];
                   PStr (lit "p2")])
           [PDict [(lit "id", PStr (lit "p1"));
                   (lit "name", PStr (lit "A"));
                   (lit "storage_path", PStr (lit "default"))]]
           [] [Fixture.p1_row] (PStr (lit "p2"))).
  - reflexivity.
  - reflexivity.
  - vm_compute. reflexivity.
  - reflexivity.
  - constructor; [|constructor].
    eexists. split; [reflexivity|]. repeat split; try reflexivity.
    intros [v [Hget _]]. discriminate Hget.
  - discriminate.
Defined.


(** Startup against a tool that fails, a missing interpreter, and a
    listing with a broken second profile. *)
Lemma startup_example :
  main Fixture.platform Fixture.project_dir (lit "/app")
    [Fixture.exited 1 "" "store is locked"]
  = Interactive
      (@Build_state Fixture.platform [] [] (lit "Ready") []
         [Subprocess_run (list_args Fixture.platform);
          command_failed {| returncode := 1; stdout := [];
                            stderr := lit "store is locked" |}])
  /\ main Fixture.platform Fixture.project_dir (lit "/app") []
     = Interactive
         (@Build_state Fixture.platform [] [] (lit "Ready") []
            [Subprocess_run (list_args Fixture.platform);
             Showerror (lit "Error")
               (lit "Failed to run command: "
                  ++ exn_str Fixture.spawn_failure)])
  /\ main Fixture.platform Fixture.project_dir (lit "/app")
       [inr {| returncode := 0; stdout := Fixture.broken_profiles_json;
               stderr := [] |}]
     = Traceback (Exn KeyError (lit "'name'"))
         (@Build_state Fixture.platform [Fixture.p1_row] [] (lit "Ready") []
            [Subprocess_run (list_args Fixture.platform)]).
Proof.
  split; [|split].
  - apply (proj1 (startup_listing_outcomes Fixture.platform
                    Fixture.project_dir (lit "/app")
                    [Fixture.exited 1 "" "store is locked"]
                    eq_refl eq_refl)
             {| returncode := 1; stdout := [];
                stderr := lit "store is locked" |} []).
    + reflexivity.
    + discriminate.
  - apply (proj1 (proj2 (startup_listing_outcomes Fixture.platform
                           Fixture.project_dir (lit "/app") []
                           eq_refl eq_refl))
             Fixture.spawn_failure []).
    reflexivity.
  - apply (proj2 (proj2 (startup_listing_outcomes Fixture.platform
                           Fixture.project_dir (lit "/app")
                           [inr {| returncode := 0;
                                   stdout := Fixture.broken_profiles_json;
                                   stderr := [] |}]
                           eq_refl eq_refl))
             {| returncode := 0; stdout := Fixture.broken_profiles_json;
                stderr := [] |} []
             [PDict [(lit "id", PStr (lit "p1")); (lit "name", PStr (lit "A"));
                     (lit "storage_path", PStr (lit "default"))]]
             [] [Fixture.p1_row]
             [(lit "id", PStr (lit "p2"))] (lit "name")).
    + reflexivity.
    + reflexivity.
    + vm_compute. reflexivity.
    + constructor; [|constructor].
      eexists. split; [reflexivity|]. repeat split; try reflexivity.
      intros [v [Hget _]]. discriminate Hget.
    + reflexivity.
Defined.
